(** * Distributive: host-state checks (users and groups, Docker, network)

    A shallow embedding of the checks of [users-and-groups.go], the Docker
    checks and the network checks, together with the properties their
    specification states about them.

    Every check is a Go function [func(parameters []string) (exitCode int,
    exitMessage string)] that reads host state.  Host state is made explicit
    as a [System] record; the three ways a Go call can end (a normal return,
    [log.Fatal], a run-time panic) are the three constructors of [outcome]. *)

From Stdlib Require Import String Ascii List ZArith Lia Bool DecimalString.
Import ListNotations.

Local Open Scope list_scope.
Local Open Scope string_scope.
Local Open Scope Z_scope.

(** ** How a call ends *)

(** The run-time panics the checks can raise. *)
Inductive panic : Type :=
| IndexOutOfRange (index len : nat)
| SliceBoundsOutOfRange (low len : nat)
| NilPointerDereference.

(** [Returns a]: the function returned [a].  [Fatal msg]: [log.Fatal(msg)]
    printed [msg] and exited the process.  [Panics p]: a run-time panic. *)
Inductive outcome (A : Type) : Type :=
| Returns (a : A)
| Fatal (msg : string)
| Panics (p : panic).

Arguments Returns {A} a.
Arguments Fatal {A} msg.
Arguments Panics {A} p.

Definition bind {A B : Type} (m : outcome A) (k : A -> outcome B) : outcome B :=
  match m with
  | Returns a => k a
  | Fatal msg => Fatal msg
  | Panics p => Panics p
  end.

Notation "x <- m ;; k" := (bind m (fun x => k))
  (at level 61, m at next level, right associativity).

Definition isFatal {A : Type} (o : outcome A) : bool :=
  match o with Fatal _ => true | _ => false end.

(** [s[i]] on a slice. *)
Definition index {A : Type} (s : list A) (i : nat) : outcome A :=
  match nth_error s i with
  | Some x => Returns x
  | None => Panics (IndexOutOfRange i (length s))
  end.

(** [s[1:]] on a slice. *)
Definition sliceFrom1 {A : Type} (s : list A) : outcome (list A) :=
  match s with
  | [] => Panics (SliceBoundsOutOfRange 1 0)
  | _ :: rest => Returns rest
  end.

Definition nl : string := String (ascii_of_nat 10) "".
Definition tab : string := String (ascii_of_nat 9) "".
Definition newline : ascii := ascii_of_nat 10.

(** ** The Go standard library, as far as the checks use it *)

Module strings.

(** [strings.Contains(s, substr)]. *)
Fixpoint Contains (s substr : string) : bool :=
  if String.prefix substr s then true
  else match s with
       | EmptyString => false
       | String _ rest => Contains rest substr
       end.

(** [strings.Join(elems, sep)]. *)
Fixpoint Join (elems : list string) (sep : string) : string :=
  match elems with
  | [] => ""
  | [e] => e
  | e :: rest => e ++ sep ++ Join rest sep
  end.

End strings.

Module regexp.

(** [regexp.MustCompile(sep).Split(s, -1)] for a pattern [sep] that is one
    literal character: the substrings between the occurrences of [sep];
    the empty string gives one empty substring. *)
Fixpoint Split (sep : ascii) (s : string) : list string :=
  match s with
  | EmptyString => [""]
  | String c rest =>
      if Ascii.eqb c sep then "" :: Split sep rest
      else match Split sep rest with
           | f :: fs => String c f :: fs
           | [] => [String c ""]
           end
  end.

Definition isUpperHex (c : ascii) : bool :=
  let n := Z.of_nat (nat_of_ascii c) in
  ((48 <=? n) && (n <=? 57)) || ((65 <=? n) && (n <=? 70)).

(** [regexp.MustCompile(":([0-9A-F]{4})").FindString(s)]: the leftmost
    colon followed by four upper-case hexadecimal digits, with those
    digits; the empty string when there is none. *)
Fixpoint FindPort (s : string) : string :=
  match s with
  | EmptyString => ""
  | String c rest =>
      match rest with
      | String h1 (String h2 (String h3 (String h4 _))) =>
          if Ascii.eqb c ":" && isUpperHex h1 && isUpperHex h2
             && isUpperHex h3 && isUpperHex h4
          then String c (String h1 (String h2 (String h3 (String h4 ""))))
          else FindPort rest
      | _ => FindPort rest
      end
  end.

End regexp.

Module strconv.

(** The value of a digit in [ParseUint]: ['0'..'9'], or a letter of either
    case ([lower(c) = c | 0x20]) counted from ten. *)
Definition digitVal (c : ascii) : option Z :=
  let n := Z.of_nat (nat_of_ascii c) in
  let low := Z.lor n 32 in
  if (48 <=? n) && (n <=? 57) then Some (n - 48)
  else if (97 <=? low) && (low <=? 122) then Some (low - 97 + 10)
  else None.

Fixpoint parseDigits (base : Z) (s : string) (acc : Z) : option Z :=
  match s with
  | EmptyString => Some acc
  | String c rest =>
      match digitVal c with
      | Some d => if d <? base then parseDigits base rest (acc * base + d)
                  else None
      | None => None
      end
  end.

(** The digits of [ParseUint(s, base, 64)] for an explicit base, read
    without a bound; [ParseInt] below applies the 64-bit range. *)
Definition ParseUint (s : string) (base : Z) : option Z :=
  match s with
  | EmptyString => None
  | _ => parseDigits base s 0
  end.

(** [strconv.ParseInt(s, base, 64)]; [None] is a non-nil error (syntax or
    range). *)
Definition ParseInt (s : string) (base : Z) : option Z :=
  match s with
  | EmptyString => None
  | String c rest =>
      let '(neg, body) :=
        if Ascii.eqb c "+" then (false, rest)
        else if Ascii.eqb c "-" then (true, rest)
        else (false, s) in
      match ParseUint body base with
      | None => None
      | Some un =>
          let cutoff := 2 ^ 63 in
          if negb neg && (cutoff <=? un) then None
          else if neg && (cutoff <? un) then None
          else Some (if neg then - un else un)
      end
  end.

End strconv.

Module fmt.

(** [fmt.Sprint(n)] for an [int]. *)
Definition Sprint (n : Z) : string := NilZero.string_of_int (Z.to_int n).

End fmt.

Module user.

(** [os/user.User]: every field is a string. *)
Record User : Type := mkUser {
  Uid : string;
  Gid : string;
  Username : string;
  Name : string;
  HomeDir : string
}.

(** [reflect.ValueOf(u).FieldByName(fieldName)], when the field exists. *)
Definition FieldByName (u : User) (fieldName : string) : option string :=
  if String.eqb fieldName "Uid" then Some (Uid u)
  else if String.eqb fieldName "Gid" then Some (Gid u)
  else if String.eqb fieldName "Username" then Some (Username u)
  else if String.eqb fieldName "Name" then Some (Name u)
  else if String.eqb fieldName "HomeDir" then Some (HomeDir u)
  else None.

End user.

Module net.

(** A [net.IP], seen through the two renderings the checks take of it:
    [ip.To4().String()] and [ip.To16().String()]. *)
Record IP : Type := mkIP {
  To4String : string;
  To16String : string
}.

(** The nil [net.IP]: both conversions are nil and print as ["<nil>"]. *)
Definition nilIP : IP := mkIP "<nil>" "<nil>".

(** A [net.Addr] by its dynamic type. *)
Inductive Addr : Type :=
| IPNet (ip : IP)
| IPAddr (ip : IP)
| OtherAddr.

(** A [net.Interface]: its name, whether [Flags&net.FlagUp != 0], and
    what [Addrs()] returns (the addresses, or the error's text). *)
Record Interface : Type := mkInterface {
  IfName : string;
  FlagUp : bool;
  Addrs : list Addr + string
}.

(** What a [net.Conn] variable holds: the nil interface, an interface
    around a nil [*TCPConn] or [*UDPConn] (not equal to nil, and [Close] on
    it dereferences the nil pointer), or an open connection. *)
Inductive Conn : Type :=
| nilConn
| nilPointerConn
| openConn.

End net.

(** ** The system under test *)

(** What the checks read from the machine they run on.  An error value is
    kept as its text ([err.Error()]) where the source prints it, and as
    [None] or [false] where the source only tests it against [nil].  The
    system does not change while one check runs. *)
Record System : Type := mkSystem {
  (** the contents of a file, when it can be read *)
  ReadFile : string -> option string;
  (** [exec.Command(name, args...).CombinedOutput()]: output and error *)
  CombinedOutput : list string -> string * option string;
  (** [user.LookupId] and [user.Lookup] *)
  LookupId : string -> option user.User;
  Lookup : string -> option user.User;
  (** [net.Interfaces()] *)
  Interfaces : list net.Interface + string;
  (** [net.LookupHost(name)] returned a nil error *)
  LookupHost : string -> bool;
  (** [net.ResolveTCPAddr("tcp", host)], [net.ResolveUDPAddr("udp", host)]:
      the resolved address as [String()] prints it *)
  ResolveTCPAddr : string -> option string;
  ResolveUDPAddr : string -> option string;
  (** [net.DialTCP], [net.DialUDP], [net.DialTimeout] returned a nil error *)
  DialTCP : string -> bool;
  DialUDP : string -> bool;
  DialTimeout : string -> string -> Z -> bool;
  (** [time.ParseDuration(s)], in nanoseconds *)
  ParseDuration : string -> option Z
}.

(** A check result [(exitCode, exitMessage)] and the type of a check. *)
Definition CheckResult : Type := Z * string.
Definition Check : Type := System -> list string -> outcome CheckResult.

(** ** Helpers of the repository that the checks call *)

(** Modelled from the spec: [isSpace], the whitespace characters of the
    two whitespace policies of the tokenizer (section 4.1); the source of the
    tokenizer is not among the files.  Whitespace is space, tab, newline,
    form feed and carriage return. *)
Definition isSpace (c : ascii) : bool :=
  let n := nat_of_ascii c in
  Nat.eqb n 32 || Nat.eqb n 9 || Nat.eqb n 10 || Nat.eqb n 12 || Nat.eqb n 13.

(** Modelled from the spec: the separators of [tokenize] (section 4.1); the
    tokenizer's source is missing.  [Exact c] is the exact-delimiter policy
    with the one-character delimiter [c]; [WhitespaceRun] is the
    run-of-whitespace policy (two or more whitespace characters);
    [Whitespace] is the single-whitespace policy. *)
Inductive Separator : Type :=
| Exact (c : ascii)
| WhitespaceRun
| Whitespace.

(** Modelled from the spec: the scan behind the run-of-whitespace policy
    (section 4.1 (b)), missing from the source files.  Read from the right,
    it returns the whitespace run the text starts with and the columns of
    what follows that run.  Only a run of two or more whitespace characters
    that comes after non-whitespace content is a column boundary; a shorter
    run stays inside its field. *)
Fixpoint scanRuns (s : string) : string * list string :=
  match s with
  | EmptyString => ("", [""])
  | String c rest =>
      let '(ws, fields) := scanRuns rest in
      if isSpace c then (String c ws, fields)
      else if (2 <=? String.length ws)%nat then ("", String c "" :: fields)
      else match fields with
           | f :: fs => ("", String c (ws ++ f) :: fs)
           | [] => ("", [String c ws])
           end
  end.

(** Modelled from the spec: the columns of one row under the
    run-of-whitespace policy. Whitespace before the first content is not
    after non-whitespace content, so it is no boundary. *)
Definition splitRuns (s : string) : list string :=
  let '(ws, fields) := scanRuns s in
  match fields with
  | f :: fs => (ws ++ f) :: fs
  | [] => [ws]
  end.

(** Modelled from the spec: the columns of one row under the
    single-whitespace policy (section 4.1 (c), plain whitespace splitting),
    missing from the source files: the maximal runs of non-whitespace
    characters.  [cur] is the field being read. *)
Fixpoint fieldsFrom (s : string) (cur : string) : list string :=
  match s with
  | EmptyString => match cur with EmptyString => [] | _ => [cur] end
  | String c rest =>
      if isSpace c
      then match cur with
           | EmptyString => fieldsFrom rest ""
           | _ => cur :: fieldsFrom rest ""
           end
      else fieldsFrom rest (cur ++ String c "")
  end.

Definition splitBy (sep : Separator) (s : string) : list string :=
  match sep with
  | Exact c => regexp.Split c s
  | WhitespaceRun => splitRuns s
  | Whitespace => fieldsFrom s ""
  end.

(** Modelled from the spec: [tokenize(text, rowSeparator, columnSeparator)]
    of section 4.1, which the source calls [separateString]; its source is
    missing.  The text is split into rows and each row into columns; empty
    text gives the empty table, and short rows are kept. *)
Definition separateString (rowSep colSep : Separator) (str : string)
  : list (list string) :=
  match str with
  | EmptyString => []
  | _ => map (splitBy colSep) (splitBy rowSep str)
  end.

(** Modelled from the spec: [stringToSlice], the tokenizer under the
    single-whitespace policy (section 4.1 (c)); its source is missing. *)
Definition stringToSlice (str : string) : list (list string) :=
  separateString (Exact newline) Whitespace str.

(** Modelled from the spec: [stringToSliceMultispace], the tokenizer under
    the run-of-whitespace policy (section 4.1 (b)); its source is missing. *)
Definition stringToSliceMultispace (str : string) : list (list string) :=
  separateString (Exact newline) WhitespaceRun str.

(** Modelled from the spec: [column(table, index, skipHeader)] of section
    4.2, missing from the source files.  With [skipHeader] the first row is
    left out; a row too short for [index] contributes nothing; row order and
    duplicates are kept. *)
Definition column (table : list (list string)) (idx : nat) (skipHeader : bool)
  : list string :=
  flat_map (fun row => match nth_error row idx with
                       | Some v => [v]
                       | None => []
                       end)
           (if skipHeader then tl table else table).

(** Modelled from the spec: [getColumnNoHeader], the column extractor with
    the header row dropped; its source is missing. *)
Definition getColumnNoHeader (col : nat) (slice : list (list string))
  : list string :=
  column slice col true.

(** Modelled from the spec: [fileToString], the file side of the output
    adapter (section 4.3), missing from the source files: fatal when the file
    cannot be read. *)
Definition fileToString (sys : System) (path : string) : outcome string :=
  match ReadFile sys path with
  | Some data => Returns data
  | None => Fatal ("Could not read file: " ++ path)
  end.

(** Modelled from the spec: the command side of the output adapter (section
    4.3), missing from the source files: fatal when the command fails, with
    a permission-denied signature in its output or for any other reason. *)
Definition commandOutput (sys : System) (cmd : list string) : outcome string :=
  match CombinedOutput sys cmd with
  | (out, None) => Returns out
  | (out, Some e) =>
      if strings.Contains out "permission denied"
      then Fatal ("Permission denied when running: " ++ strings.Join cmd " ")
      else Fatal ("Error while running: " ++ strings.Join cmd " "
                  ++ nl ++ tab ++ e)
  end.

(** Modelled from the spec: [commandColumnNoHeader], missing from the source
    files: the adapter's output, tokenized, then one column of it with the
    header row dropped (sections 4.1 to 4.3). *)
Definition commandColumnNoHeader (sys : System) (col : nat) (cmd : list string)
  : outcome (list string) :=
  out <- commandOutput sys cmd ;;
  Returns (getColumnNoHeader col (stringToSlice out)).

(** Modelled from the spec: how the diagnostic formatter (section 4.4)
    renders the found values: comma-joined, and an explicit marker for the
    empty sequence. *)
Definition renderFound (found : list string) : string :=
  match found with
  | [] => "(none)"
  | _ => strings.Join found ", "
  end.

(** Modelled from the spec: [genericError], the diagnostic formatter
    [format(label, wanted, found)] of section 4.4, missing from the source
    files: exit code 1 and the message
    ["<label>\n\tWanted: <wanted>\n\tFound: <found>"]. *)
Definition genericError (label wanted : string) (found : list string)
  : CheckResult :=
  (1, label ++ nl ++ tab ++ "Wanted: " ++ wanted
        ++ nl ++ tab ++ "Found: " ++ renderFound found).

(** Modelled from the spec: [strIn], the membership test of the checks
    (section 2, data flow), missing from the source files. *)
Definition strIn (s : string) (slice : list string) : bool :=
  existsb (String.eqb s) slice.

(** Modelled from the spec: [parseMyInt], the strict integer parse of a
    numeric parameter (section 4.5), missing from the source files: fatal on
    malformed input. *)
Definition parseMyInt (str : string) : outcome Z :=
  match strconv.ParseInt str 10 with
  | Some n => Returns n
  | None => Fatal ("Could not parse int: " ++ str)
  end.

(** ** users-and-groups.go *)

(** [Group]: what is parsed from one entry of /etc/group. *)
Record Group : Type := mkGroup {
  Name : string;
  Id : Z;
  Users : list string
}.

(** [int(gid)] for an [int64] on a platform whose [int] has 64 bits. *)
Definition int (n : Z) : Z := n.

(** The loop of [getGroups] over the tokenized lines. *)
Fixpoint getGroupsFrom (lines : list (list string)) (groups : list Group)
  : outcome (list Group) :=
  match lines with
  | [] => Returns groups
  | line :: rest =>
      match line with
      | f0 :: _ :: f2 :: f3 :: _ =>          (* len(line) > 3 *)
          match strconv.ParseInt f2 10 with
          | None => Fatal ("Could not parse ID for group: " ++ f0)
          | Some gid =>
              let userSlice := regexp.Split "," f3 in
              let group := mkGroup f0 (int gid) userSlice in
              getGroupsFrom rest (groups ++ [group])%list
          end
      | _ => getGroupsFrom rest groups
      end
  end.

Definition getGroups (sys : System) : outcome (list Group) :=
  data <- fileToString sys "/etc/group" ;;
  let lines := separateString (Exact newline) (Exact ":") data in
  getGroupsFrom lines [].

Definition groupNotFound (sys : System) (name : string) : outcome CheckResult :=
  groups <- getGroups sys ;;
  let existing := map Name groups in
  Returns (genericError "Group not found" name existing).

Fixpoint groupNamed (groups : list Group) (name : string) : bool :=
  match groups with
  | [] => false
  | group :: rest => if String.eqb (Name group) name then true
                     else groupNamed rest name
  end.

(** The closure [doesGroupExist] of [GroupExists]. *)
Definition doesGroupExist (sys : System) (name : string) : outcome bool :=
  groups <- getGroups sys ;;
  Returns (groupNamed groups name).

Definition GroupExists : Check := fun sys parameters =>
  name <- index parameters 0 ;;
  found <- doesGroupExist sys name ;;
  if found then Returns (0, "") else groupNotFound sys name.

Fixpoint UserInGroupFrom (sys : System) (groups : list Group)
  (user group : string) : outcome CheckResult :=
  match groups with
  | [] => groupNotFound sys group
  | g :: rest =>
      if String.eqb (Name g) group then
        if strIn user (Users g) then Returns (0, "")
        else Returns (genericError "User not found in group" user (Users g))
      else UserInGroupFrom sys rest user group
  end.

(** Both [user] and [group] are read from [parameters[0]]. *)
Definition UserInGroup : Check := fun sys parameters =>
  user <- index parameters 0 ;;
  group <- index parameters 0 ;;
  groups <- getGroups sys ;;
  UserInGroupFrom sys groups user group.

Fixpoint GroupIdFrom (sys : System) (groups : list Group) (name : string)
  (id : Z) : outcome CheckResult :=
  match groups with
  | [] => groupNotFound sys name
  | g :: rest =>
      if String.eqb (Name g) name then
        if Id g =? id then Returns (0, "")
        else
          let msg := "Group does not have expected ID" in
          Returns (genericError msg (fmt.Sprint id) [fmt.Sprint (Id g)])
      else GroupIdFrom sys rest name id
  end.

Definition GroupId : Check := fun sys parameters =>
  name <- index parameters 0 ;;
  idParameter <- index parameters 1 ;;
  id <- parseMyInt idParameter ;;
  groups <- getGroups sys ;;
  GroupIdFrom sys groups name id.

(** [lookupUser]: [Some] is a user with a nil error. *)
Definition lookupUser (sys : System) (usernameOrUid : string)
  : option user.User :=
  match LookupId sys usernameOrUid with
  | Some usr => Some usr
  | None => Lookup sys usernameOrUid
  end.

(** [userHasField] returns [(bool, error)]; the error is kept as its text. *)
Definition userHasField (sys : System)
  (usernameOrUid fieldName givenValue : string)
  : outcome (bool * option string) :=
  match lookupUser sys usernameOrUid with
  | None => Returns (false, Some ("Couldn't find user: " ++ usernameOrUid))
  | Some usr =>
      match user.FieldByName usr fieldName with
      | None =>                              (* fieldVal.Kind() is Invalid *)
          Fatal ("Failure during reflection: Field is not a string:"
                 ++ nl ++ tab ++ "Field name: " ++ fieldName
                 ++ nl ++ tab ++ "Field Kind: " ++ "invalid"
                 ++ nl ++ tab ++ "User: " ++ user.Username usr)
      | Some actualValue =>
          Returns (String.eqb actualValue givenValue, None)
      end
  end.

Definition genericUserField (sys : System)
  (usernameOrUid fieldName fieldValue : string) : outcome CheckResult :=
  r <- userHasField sys usernameOrUid fieldName fieldValue ;;
  match r with
  | (_, Some _) => Returns (1, "User does not exist: " ++ usernameOrUid)
  | (true, None) => Returns (0, "")
  | (false, None) =>
      Returns (1, "User does not have expected " ++ fieldName ++ ": "
                  ++ nl ++ "User: " ++ usernameOrUid
                  ++ nl ++ "Given: " ++ fieldValue)
  end.

Definition UserExists : Check := fun sys parameters =>
  usernameOrUid <- index parameters 0 ;;
  match lookupUser sys usernameOrUid with
  | Some _ => Returns (0, "")
  | None => Returns (1, "User does not exist: " ++ usernameOrUid)
  end.

Definition UserHasUID : Check := fun sys parameters =>
  p0 <- index parameters 0 ;;
  p1 <- index parameters 1 ;;
  genericUserField sys p0 "Uid" p1.

Definition UserHasGID : Check := fun sys parameters =>
  p0 <- index parameters 0 ;;
  p1 <- index parameters 1 ;;
  genericUserField sys p0 "Gid" p1.

Definition UserHasUsername : Check := fun sys parameters =>
  p0 <- index parameters 0 ;;
  p1 <- index parameters 1 ;;
  genericUserField sys p0 "Username" p1.

Definition UserHasName : Check := fun sys parameters =>
  p0 <- index parameters 0 ;;
  p1 <- index parameters 1 ;;
  genericUserField sys p0 "Name" p1.

Definition UserHasHomeDir : Check := fun sys parameters =>
  p0 <- index parameters 0 ;;
  p1 <- index parameters 1 ;;
  genericUserField sys p0 "HomeDir" p1.

(** ** The Docker checks *)

Definition DockerImage : Check := fun sys parameters =>
  name <- index parameters 0 ;;
  images <- commandColumnNoHeader sys 0 ["docker"; "images"] ;;
  if strIn name images then Returns (0, "")
  else Returns (genericError "Docker image was not found" name images).

(** The loop of [getRunningContainers] over [statuses], at index [i]. *)
Fixpoint runningFrom (names statuses : list string) (i : nat)
  (images : list string) : outcome (list string) :=
  match statuses with
  | [] => Returns images
  | status :: rest =>
      if strings.Contains status "Up" && (i <? length names)%nat then
        name <- index names i ;;
        runningFrom names rest (S i) (images ++ [name])%list
      else runningFrom names rest (S i) images
  end.

(** The closure [getRunningContainers] of [DockerRunning]. *)
Definition getRunningContainers (sys : System) : outcome (list string) :=
  let '(outstr, err) := CombinedOutput sys ["docker"; "ps"; "-a"] in
  match err with
  | Some e =>
      if strings.Contains outstr "permission denied"
      then Fatal "Permission denied when running: docker ps -a"
      else Fatal ("Error while running `docker ps -a`" ++ nl ++ tab ++ e)
  | None =>
      let lines := stringToSliceMultispace outstr in
      if (length lines <? 1)%nat then Returns []
      else
        let names := getColumnNoHeader 1 lines in
        let statuses := getColumnNoHeader 4 lines in
        runningFrom names statuses 0 []
  end.

Definition DockerRunning : Check := fun sys parameters =>
  name <- index parameters 0 ;;
  running <- getRunningContainers sys ;;
  if strIn name running then Returns (0, "")
  else Returns (genericError "Docker container not runnning" name running).

(** ** The network checks *)

(** [port[1:]] on the match of the port pattern. *)
Definition dropColon (port : string) : string :=
  match port with
  | EmptyString => ""
  | String _ rest => rest
  end.

(** The loop of [getHexPorts] over the local addresses. *)
Definition hexPortsOf (localAddresses : list string) : list string :=
  flat_map (fun address =>
              let port := regexp.FindPort address in
              if String.eqb port "" then [] else [dropColon port])
           localAddresses.

Definition getHexPorts (sys : System) : outcome (list string) :=
  data <- fileToString sys "/proc/net/tcp" ;;
  let localAddresses := getColumnNoHeader 1 (stringToSlice data) in
  Returns (hexPortsOf localAddresses).

(** [strHexToDecimal]; of the text of the parse error only the function
    name is kept. *)
Definition strHexToDecimal (hex : string) : outcome Z :=
  match strconv.ParseInt hex 16 with
  | Some portInt => Returns (int portInt)
  | None => Fatal ("Couldn't parse hex number " ++ hex ++ ":" ++ nl ++ tab
                   ++ "strconv.ParseInt")
  end.

(** The loop of [getOpenPorts] over the hexadecimal ports. *)
Fixpoint openPortsFrom (hexPorts : list string) (ports : list Z)
  : outcome (list Z) :=
  match hexPorts with
  | [] => Returns ports
  | port :: rest =>
      p <- strHexToDecimal port ;;
      openPortsFrom rest (ports ++ [p])%list
  end.

Definition getOpenPorts (sys : System) : outcome (list Z) :=
  hexPorts <- getHexPorts sys ;;
  openPortsFrom hexPorts [].

Definition Port : Check := fun sys parameters =>
  p0 <- index parameters 0 ;;
  port <- parseMyInt p0 ;;
  open <- getOpenPorts sys ;;
  if existsb (fun p => p =? port) open then Returns (0, "")
  else
    let strPorts := map fmt.Sprint open in
    Returns (genericError "Port not open" (fmt.Sprint port) strPorts).

Definition getInterfaces (sys : System) : outcome (list net.Interface) :=
  match Interfaces sys with
  | inl ifaces => Returns ifaces
  | inr e => Fatal ("Could not read network interfaces:" ++ nl ++ tab ++ e)
  end.

Definition Interface : Check := fun sys parameters =>
  name <- index parameters 0 ;;
  ifaces <- getInterfaces sys ;;
  let interfaces := map net.IfName ifaces in
  if existsb (fun iface => String.eqb iface name) interfaces
  then Returns (0, "")
  else Returns (genericError "Interface does not exist" name interfaces).

Definition Up : Check := fun sys parameters =>
  name <- index parameters 0 ;;
  ifaces <- getInterfaces sys ;;
  let upInterfaces := map net.IfName (filter net.FlagUp ifaces) in
  if strIn name upInterfaces then Returns (0, "")
  else Returns (genericError "Interface is not up" name upInterfaces).

(** What one address adds to [ifaceAddresses] in [getInterfaceIPs]; [ip]
    stays nil for an address that is neither [*net.IPNet] nor
    [*net.IPAddr]. *)
Definition addressString (version : Z) (addr : net.Addr) : list string :=
  let ip := match addr with
            | net.IPNet ip => ip
            | net.IPAddr ip => ip
            | net.OtherAddr => net.nilIP
            end in
  if version =? 4 then [net.To4String ip]
  else if version =? 6 then [net.To16String ip]
  else [].

Fixpoint interfaceIPsFrom (ifaces : list net.Interface) (name : string)
  (version : Z) : outcome (list string) :=
  match ifaces with
  | [] => Returns []
  | iface :: rest =>
      if String.eqb (net.IfName iface) name then
        match net.Addrs iface with
        | inr e =>
            Fatal ("Could not get network addressed from interface: "
                   ++ nl ++ tab ++ "Interface name: " ++ net.IfName iface
                   ++ nl ++ tab ++ "Error: " ++ e)
        | inl addresses => Returns (flat_map (addressString version) addresses)
        end
      else interfaceIPsFrom rest name version
  end.

Definition getInterfaceIPs (sys : System) (name : string) (version : Z)
  : outcome (list string) :=
  if negb (version =? 4) && negb (version =? 6) then
    Fatal ("Misconfigured JSON: Unsupported IP version: " ++ fmt.Sprint version)
  else
    ifaces <- getInterfaces sys ;;
    interfaceIPsFrom ifaces name version.

Definition getIPWorker (sys : System) (name address : string) (version : Z)
  : outcome CheckResult :=
  ips <- getInterfaceIPs sys name version ;;
  if strIn address ips then Returns (0, "")
  else Returns (genericError "Interface does not have IP" address ips).

Definition Ip4 : Check := fun sys parameters =>
  p0 <- index parameters 0 ;;
  p1 <- index parameters 1 ;;
  getIPWorker sys p0 p1 4.

Definition Ip6 : Check := fun sys parameters =>
  p0 <- index parameters 0 ;;
  p1 <- index parameters 1 ;;
  getIPWorker sys p0 p1 6.

(** [s[1:]] of a column of [route -n] with its header dropped. *)
Definition routingTableColumn (sys : System) (col : nat)
  : outcome (list string) :=
  c <- commandColumnNoHeader sys col ["route"; "-n"] ;;
  sliceFrom1 c.

(** The loop of [getGatewayAddress]. *)
Fixpoint firstNonZero (ips : list string) : string :=
  match ips with
  | [] => "0.0.0.0"
  | ip :: rest => if negb (String.eqb ip "0.0.0.0") then ip
                  else firstNonZero rest
  end.

Definition Gateway : Check := fun sys parameters =>
  address <- index parameters 0 ;;
  ips <- routingTableColumn sys 1 ;;
  let gatewayIP := firstNonZero ips in
  if String.eqb address gatewayIP then Returns (0, "")
  else
    let msg := "Gateway does not have address" in
    Returns (genericError msg address [gatewayIP]).

(** The loop of [getGatewayInterface] over [ips], at index [i];
    [log.Fatal()] has no arguments there. *)
Fixpoint gatewayInterfaceFrom (ips names : list string) (i : nat)
  : outcome string :=
  match ips with
  | [] => Returns ""
  | ip :: rest =>
      if negb (String.eqb ip "0.0.0.0") then
        if (length names <? i)%nat then Fatal ""
        else index names i
      else gatewayInterfaceFrom rest names (S i)
  end.

(** The closure [getGatewayInterface]: both columns are column 1. *)
Definition getGatewayInterface (sys : System) : outcome string :=
  ips <- routingTableColumn sys 1 ;;
  names <- routingTableColumn sys 1 ;;
  gatewayInterfaceFrom ips names 0.

Definition GatewayInterface : Check := fun sys parameters =>
  name <- index parameters 0 ;;
  iface <- getGatewayInterface sys ;;
  if String.eqb name iface then Returns (0, "")
  else
    let msg := "Default gateway does not operate on interface" in
    Returns (genericError msg name [iface]).

Definition Host : Check := fun sys parameters =>
  host <- index parameters 0 ;;
  if LookupHost sys host then Returns (0, "")
  else Returns (1, "Host cannot be resolved: " ++ host).

(** [canConnect].  Each case of the switch declares its own [err] with
    [:=], so the dial inside the switch never reaches the [err] tested at
    the end: that one is set by [net.DialTimeout] alone.  The dial inside
    the switch does set [conn]: [net.DialTCP] and [net.DialUDP] return a
    pointer, so after a failed dial [conn] holds a nil pointer, is not equal
    to nil, and the deferred [conn.Close()] panics when the function
    returns. *)
Definition canConnect (sys : System) (host protocol : string) (timeout : Z)
  : outcome bool :=
  let nanoseconds := timeout in
  target <-
    (if String.eqb protocol "TCP" then
       match ResolveTCPAddr sys host with
       | None => Fatal ("Could not parse " ++ protocol ++ " address: " ++ host)
       | Some tcpaddr =>
           let conn :=
             if nanoseconds <=? 0
             then (if DialTCP sys tcpaddr then net.openConn
                   else net.nilPointerConn)
             else net.nilConn in
           Returns ("tcp", tcpaddr, conn)
       end
     else if String.eqb protocol "UDP" then
       match ResolveUDPAddr sys host with
       | None => Fatal ("Could not parse " ++ protocol ++ " address: " ++ host)
       | Some udpaddr =>
           let conn :=
             if nanoseconds <=? 0
             then (if DialUDP sys udpaddr then net.openConn
                   else net.nilPointerConn)
             else net.nilConn in
           Returns ("udp", udpaddr, conn)
       end
     else Fatal ("Unsupported protocol: " ++ protocol)) ;;
  let '(timeoutNetwork, timeoutAddress, switchConn) := target in
  let '(conn, errIsNil) :=
    if 0 <? nanoseconds
    then (if DialTimeout sys timeoutNetwork timeoutAddress timeout
          then (net.openConn, true)
          else (net.nilConn, false))
    else (switchConn, true) in
  match conn with
  | net.nilPointerConn => Panics NilPointerDereference
  | _ => Returns errIsNil
  end.

Definition getConnectionWorker (sys : System)
  (host protocol timeoutstr : string) : outcome CheckResult :=
  match ParseDuration sys timeoutstr with
  | None => Fatal ("Configuration error: Could not parse duration: "
                   ++ timeoutstr)
  | Some dur =>
      connected <- canConnect sys host protocol dur ;;
      if connected then Returns (0, "")
      else Returns (1, "Could not connect over " ++ protocol
                       ++ " to host: " ++ host)
  end.

Definition TCP : Check := fun sys parameters =>
  p0 <- index parameters 0 ;;
  getConnectionWorker sys p0 "TCP" "0ns".

Definition UDP : Check := fun sys parameters =>
  p0 <- index parameters 0 ;;
  getConnectionWorker sys p0 "UDP" "0ns".

Definition tcpTimeout : Check := fun sys parameters =>
  p0 <- index parameters 0 ;;
  p1 <- index parameters 1 ;;
  getConnectionWorker sys p0 "TCP" p1.

Definition udpTimeout : Check := fun sys parameters =>
  p0 <- index parameters 0 ;;
  p1 <- index parameters 1 ;;
  getConnectionWorker sys p0 "UDP" p1.

Definition routingTableMatch (sys : System) (col : nat) (str : string)
  : outcome CheckResult :=
  column <- routingTableColumn sys col ;;
  if strIn str column then Returns (0, "")
  else Returns (genericError "Not found in routing table" str column).

Definition RoutingTableDestination : Check := fun sys parameters =>
  p0 <- index parameters 0 ;;
  routingTableMatch sys 0 p0.

Definition RoutingTableInterface : Check := fun sys parameters =>
  p0 <- index parameters 0 ;;
  routingTableMatch sys 7 p0.

Definition RoutingTableGateway : Check := fun sys parameters =>
  p0 <- index parameters 0 ;;
  routingTableMatch sys 1 p0.

(** The checks by name, each with the number of positional parameters it
    takes according to its description in the source. *)
Definition domainChecks : list (string * nat * Check) :=
  [ ("GroupExists", 1%nat, GroupExists);
    ("UserInGroup", 2%nat, UserInGroup);
    ("GroupId", 2%nat, GroupId);
    ("UserExists", 1%nat, UserExists);
    ("UserHasUID", 2%nat, UserHasUID);
    ("UserHasGID", 2%nat, UserHasGID);
    ("UserHasUsername", 2%nat, UserHasUsername);
    ("UserHasName", 2%nat, UserHasName);
    ("UserHasHomeDir", 2%nat, UserHasHomeDir);
    ("DockerImage", 1%nat, DockerImage);
    ("DockerRunning", 1%nat, DockerRunning);
    ("Port", 1%nat, Port);
    ("Interface", 1%nat, Interface);
    ("Up", 1%nat, Up);
    ("Ip4", 2%nat, Ip4);
    ("Ip6", 2%nat, Ip6);
    ("Gateway", 1%nat, Gateway);
    ("GatewayInterface", 1%nat, GatewayInterface);
    ("Host", 1%nat, Host);
    ("TCP", 1%nat, TCP);
    ("UDP", 1%nat, UDP);
    ("RoutingTableDestination", 1%nat, RoutingTableDestination);
    ("RoutingTableInterface", 1%nat, RoutingTableInterface);
    ("RoutingTableGateway", 1%nat, RoutingTableGateway) ].

(** ** Systems to run the checks on *)

(** A machine with no files, no commands, no users and no network. *)
Definition bareSystem : System :=
  {| ReadFile := fun _ => None;
     CombinedOutput := fun _ => ("", Some "executable file not found in $PATH");
     LookupId := fun _ => None;
     Lookup := fun _ => None;
     Interfaces := inl [];
     LookupHost := fun _ => false;
     ResolveTCPAddr := fun _ => None;
     ResolveUDPAddr := fun _ => None;
     DialTCP := fun _ => false;
     DialUDP := fun _ => false;
     DialTimeout := fun _ _ _ => false;
     ParseDuration := fun s => if String.eqb s "0ns" then Some 0 else None |}.

(** [sys] with the file [path] holding [data]. *)
Definition withFile (path data : string) (sys : System) : System :=
  {| ReadFile := fun p => if String.eqb p path then Some data
                          else ReadFile sys p;
     CombinedOutput := CombinedOutput sys;
     LookupId := LookupId sys;
     Lookup := Lookup sys;
     Interfaces := Interfaces sys;
     LookupHost := LookupHost sys;
     ResolveTCPAddr := ResolveTCPAddr sys;
     ResolveUDPAddr := ResolveUDPAddr sys;
     DialTCP := DialTCP sys;
     DialUDP := DialUDP sys;
     DialTimeout := DialTimeout sys;
     ParseDuration := ParseDuration sys |}.

(** [sys] where running [cmd] gives [result]. *)
Definition withCommand (cmd : list string) (result : string * option string)
  (sys : System) : System :=
  {| ReadFile := ReadFile sys;
     CombinedOutput := fun c => if list_eq_dec string_dec c cmd then result
                                else CombinedOutput sys c;
     LookupId := LookupId sys;
     Lookup := Lookup sys;
     Interfaces := Interfaces sys;
     LookupHost := LookupHost sys;
     ResolveTCPAddr := ResolveTCPAddr sys;
     ResolveUDPAddr := ResolveUDPAddr sys;
     DialTCP := DialTCP sys;
     DialUDP := DialUDP sys;
     DialTimeout := DialTimeout sys;
     ParseDuration := ParseDuration sys |}.

(** Lines joined by newlines. *)
Definition lines (ls : list string) : string := strings.Join ls nl.

(** A machine whose user may not talk to the Docker daemon. *)
Definition deniedDocker : System :=
  withCommand ["docker"; "ps"; "-a"]
    ("Got permission denied while trying to connect to the Docker daemon",
     Some "exit status 1")
    bareSystem.

(** `route -n` on a machine with one default route through eth0. *)
Definition routeOutput : string :=
  lines
    [ "Kernel IP routing table";
      "Destination     Gateway         Genmask         Flags Metric Ref    Use Iface";
      "0.0.0.0         192.168.1.1     0.0.0.0         UG    100    0        0 eth0";
      "192.168.1.0     0.0.0.0         255.255.255.0   U     100    0        0 eth0" ].

Definition routedSystem : System :=
  withCommand ["route"; "-n"] (routeOutput, None) bareSystem.

(** `docker images` with two images pulled. *)
Definition dockerImagesOutput : string :=
  lines
    [ "REPOSITORY   TAG       IMAGE ID       CREATED        SIZE";
      "ubuntu       latest    3db8720ecbf5   2 weeks ago    77.9MB";
      "nginx        latest    e4720093a3c1   3 weeks ago    187MB" ].

Definition dockerSystem : System :=
  withCommand ["docker"; "images"] (dockerImagesOutput, None) bareSystem.

(** /proc/net/tcp with listeners on 127.0.0.1:8080 and 0.0.0.0:22. *)
Definition procNetTcp : string :=
  lines
    [ "  sl  local_address rem_address   st tx_queue rx_queue tr tm->when retrnsmt   uid  timeout inode";
      "   0: 0100007F:1F90 00000000:0000 0A 00000000:00000000 00:00000000 00000000     0        0 12345 1 0000000000000000 100 0 0 10 0";
      "   1: 00000000:0016 00000000:0000 0A 00000000:00000000 00:00000000 00000000     0        0 23456 1 0000000000000000 100 0 0 10 0" ].

Definition listeningSystem : System :=
  withFile "/proc/net/tcp" procNetTcp bareSystem.

(** `docker ps -a` with one container up and one exited. *)
Definition dockerPsOutput : string :=
  lines
    [ "CONTAINER ID   IMAGE     COMMAND       CREATED       STATUS       PORTS     NAMES";
      "3f4e5d6c7b8a   web       nginx -g      2 hours ago   Up 2 hours   80/tcp    frontend";
      "b1946ac92492   db        sleep 1d      3 hours ago   Exited (0) 1 hour ago   backend" ].

Definition containerSystem : System :=
  withCommand ["docker"; "ps"; "-a"] (dockerPsOutput, None) bareSystem.

(** `docker ps -a` output with a row that stops after its second column. *)
Definition truncatedPsOutput : string :=
  lines
    [ "CONTAINER ID   IMAGE     COMMAND       CREATED       STATUS       NAMES";
      "b1946ac92492   web";
      "3f4e5d6c7b8a   db        sleep 1d      2 hours ago   Up 2 hours   backend" ].

Definition truncatedSystem : System :=
  withCommand ["docker"; "ps"; "-a"] (truncatedPsOutput, None) bareSystem.

(** * Vocabulary of the properties *)

(** A line with all four fields whose id field does not parse. *)
Definition unparsableId (line : list string) : bool :=
  match line with
  | _ :: _ :: f2 :: _ :: _ =>
      match strconv.ParseInt f2 10 with None => true | Some _ => false end
  | _ => false
  end.

(** The invariant of a check result: the exit code is 0 or 1, the message
    is empty with 0 and non-empty with 1. *)
Definition wellFormed (r : CheckResult) : Prop :=
  (fst r = 0 \/ fst r = 1)
  /\ (fst r = 0 -> snd r = "")
  /\ (fst r = 1 -> snd r <> "").

(** A call respects the contract when whatever it returns is well formed. *)
Definition respectsContract (o : outcome CheckResult) : Prop :=
  forall r, o = Returns r -> wellFormed r.

(** The first entry of a gateway column that is not "0.0.0.0", and the
    empty string when there is none. *)
Definition firstGateway (col : list string) : string :=
  match find (fun ip => negb (String.eqb ip "0.0.0.0")) col with
  | Some ip => ip
  | None => ""
  end.

(** [sub] occurs in [s]. *)
Definition occursIn (sub s : string) : Prop :=
  exists before after, s = before ++ sub ++ after.

(** [c] is one of the characters of [s]. *)
Fixpoint hasChar (c : ascii) (s : string) : bool :=
  match s with
  | EmptyString => false
  | String a rest => Ascii.eqb a c || hasChar c rest
  end.

(** The text of /etc/group for rows of fields: colons between the fields,
    newlines between the rows. *)
Definition renderGroupFile (rows : list (list string)) : string :=
  strings.Join (map (fun row => strings.Join row ":") rows) nl.

(** A field that can be written to /etc/group as it is: no colon and no
    newline in it. *)
Definition plainField (f : string) : bool :=
  negb (hasChar ":" f) && negb (hasChar newline f).

(** A row of at least one field, all plain. *)
Definition plainRow (row : list string) : bool :=
  match row with
  | [] => false
  | _ => forallb plainField row
  end.

(** What is expected of one line, by the numbers of its fields: no
    group for fewer than 4 fields; otherwise field 0 as name, the integer
    parsed from field 2 as id and field 3 split on commas as users. *)
Definition expectedGroup (fields : list string) : option Group :=
  if (length fields <? 4)%nat then None
  else match strconv.ParseInt (nth 2 fields "") 10 with
       | Some id =>
           Some (mkGroup (nth 0 fields "") id
                   (regexp.Split "," (nth 3 fields "")))
       | None => None
       end.

Definition expectedGroups (rows : list (list string)) : list Group :=
  flat_map (fun row => match expectedGroup row with
                       | Some g => [g]
                       | None => []
                       end) rows.

(** The id field of a row parses, when the row has one to parse. *)
Definition idParses (row : list string) : bool :=
  (length row <? 4)%nat
  || match strconv.ParseInt (nth 2 row "") 10 with
     | Some _ => true
     | None => false
     end.

(** No two whitespace characters of [s] are adjacent. *)
Fixpoint singleSpaced (s : string) : bool :=
  match s with
  | String a (String b _ as rest) =>
      negb (isSpace a && isSpace b) && singleSpaced rest
  | _ => true
  end.

(** [s] is not empty and its last character is not whitespace. *)
Fixpoint endsInContent (s : string) : bool :=
  match s with
  | EmptyString => false
  | String a EmptyString => negb (isSpace a)
  | String _ rest => endsInContent rest
  end.

Definition startsWithContent (s : string) : bool :=
  match s with
  | EmptyString => false
  | String a _ => negb (isSpace a)
  end.

(** A column value: content at both ends and single spaces only inside. *)
Definition columnValue (s : string) : bool :=
  startsWithContent s && endsInContent s && singleSpaced s.

(** The whitespace character a string starts with, if any, and the rest. *)
Definition lead (s : string) : string :=
  match s with
  | String a _ => if isSpace a then String a "" else ""
  | EmptyString => ""
  end.

Definition body (s : string) : string :=
  match s with
  | String a rest => if isSpace a then rest else s
  | EmptyString => ""
  end.

(** Some row has [name] in column 1 and a status containing "Up" in
    column 4. *)
Definition runningRow (rows : list (list string)) (name : string) : Prop :=
  exists row status,
    In row rows
    /\ nth_error row 1 = Some name
    /\ nth_error row 4 = Some status
    /\ strings.Contains status "Up" = true.

(** Position [i] of the two columns pairs [name] with a status containing
    "Up". *)
Definition runningAt (names statuses : list string) (name : string) : Prop :=
  exists i status,
    nth_error statuses i = Some status
    /\ strings.Contains status "Up" = true
    /\ nth_error names i = Some name.

(** A row that has column 4 or lacks column 1. *)
Definition fullOrBlank (row : list string) : bool :=
  (length row <=? 1)%nat || (5 <=? length row)%nat.

(** ** Further systems and vocabulary *)

(** The user alice. *)
Definition alice : user.User :=
  user.mkUser "1000" "1000" "alice" "Alice Liddell" "/home/alice".

(** A user whose name is the uid of alice. *)
Definition numeric : user.User :=
  user.mkUser "2000" "2000" "1000" "Numeric Name" "/home/numeric".

(** The loopback interface, up, and an ethernet interface that is down and
    has one address of a type the checks do not know. *)
Definition lo : net.Interface :=
  net.mkInterface "lo" true
    (inl [net.IPNet (net.mkIP "127.0.0.1" "127.0.0.1");
          net.IPNet (net.mkIP "<nil>" "::1")]).

Definition eth0 : net.Interface :=
  net.mkInterface "eth0" false (inl [net.OtherAddr]).

(** A machine with users, interfaces and a resolver, on which no
    connection attempt succeeds. *)
Definition networkSystem : System :=
  {| ReadFile := fun _ => None;
     CombinedOutput := fun _ => ("", None);
     LookupId := fun s => if String.eqb s "1000" then Some alice else None;
     Lookup := fun s => if String.eqb s "alice" then Some alice
                        else if String.eqb s "1000" then Some numeric
                        else None;
     Interfaces := inl [lo; eth0];
     LookupHost := fun s => String.eqb s "localhost";
     ResolveTCPAddr := fun s => if String.eqb s "localhost:80"
                                then Some "127.0.0.1:80" else None;
     ResolveUDPAddr := fun s => if String.eqb s "localhost:53"
                                then Some "127.0.0.1:53" else None;
     DialTCP := fun _ => false;
     DialUDP := fun _ => false;
     DialTimeout := fun _ _ _ => false;
     ParseDuration := fun s => if String.eqb s "0ns" then Some 0
                               else if String.eqb s "1s" then Some 1000000000
                               else None |}.

(** The checks that read the routing table. *)
Definition isRoutingCheck (name : string) : bool :=
  existsb (String.eqb name)
    ["Gateway"; "GatewayInterface"; "RoutingTableDestination";
     "RoutingTableInterface"; "RoutingTableGateway"].

(** `route -n` with a local route first and two gateways after it. *)
Definition twoGatewayOutput : string :=
  lines
    [ "Kernel IP routing table";
      "Destination     Gateway         Genmask         Flags Metric Ref    Use Iface";
      "10.1.0.0        0.0.0.0         255.255.0.0     U     0      0        0 eth1";
      "0.0.0.0         192.168.1.1     0.0.0.0         UG    100    0        0 eth0";
      "10.2.0.0        10.0.0.1        255.255.0.0     UG    0      0        0 eth1" ].

Definition twoGatewaySystem : System :=
  withCommand ["route"; "-n"] (twoGatewayOutput, None) bareSystem.

(** The checks that dial without a timeout. *)
Definition isDialCheck (name : string) : bool :=
  existsb (String.eqb name) ["TCP"; "UDP"].

(** The checks that read neither a file nor a command output. *)
Definition isLookupCheck (name : string) : bool :=
  existsb (String.eqb name)
    ["UserExists"; "UserHasUID"; "UserHasGID"; "UserHasUsername";
     "UserHasName"; "UserHasHomeDir"; "Host"].

(** Four upper-case hexadecimal digits. *)
Definition isHex4 (p : string) : bool :=
  match p with
  | String h1 (String h2 (String h3 (String h4 EmptyString))) =>
      regexp.isUpperHex h1 && regexp.isUpperHex h2
      && regexp.isUpperHex h3 && regexp.isUpperHex h4
  | _ => false
  end.

(** A local address as /proc/net/tcp prints it: the address, a colon and
    the port. *)
Definition localAddress (entry : string * string) : string :=
  fst entry ++ ":" ++ snd entry.

(** An entry whose address part has no colon and whose port is four
    upper-case hexadecimal digits. *)
Definition plainEntry (entry : string * string) : bool :=
  negb (hasChar ":" (fst entry)) && isHex4 (snd entry).

(** The name of a line of /etc/group that has all four fields. *)
Definition lineName (line : list string) : list string :=
  match line with
  | f0 :: _ :: _ :: _ :: _ => [f0]
  | _ => []
  end.

(** A call that does not end in a run-time panic. *)
Definition neverPanics {A : Type} (o : outcome A) : Prop :=
  forall p, o <> Panics p.

(** `docker ps -a` with one container, exited. *)
Definition exitedPsOutput : string :=
  lines
    [ "CONTAINER ID   IMAGE   COMMAND   CREATED       STATUS                  NAMES";
      "b1946ac92492   db      sleep     3 hours ago   Exited (0) 1 hour ago   backend" ].

Definition exitedSystem : System :=
  withCommand ["docker"; "ps"; "-a"] (exitedPsOutput, None) bareSystem.

(** * Properties *)

(** ** The second parameter of UserInGroup *)

Lemma getGroups_of_file (sys : System) (data : string) :
  ReadFile sys "/etc/group" = Some data ->
  getGroups sys
  = getGroupsFrom (separateString (Exact newline) (Exact ":") data) [].
Proof.
  intros Hfile. unfold getGroups, fileToString. rewrite Hfile. reflexivity.
Qed.

Lemma UserInGroup_second_ignored (sys : System) (user group : string)
  (rest : list string) :
  UserInGroup sys (user :: group :: rest) = UserInGroup sys [user].
Proof. reflexivity. Qed.

(** C1 (as the code has it): with /etc/group holding "sudo:x:27:alice",
    UserInGroup(["alice","sudo"]) does not return (0, ""): the group is read
    from parameters[0] like the user, so the check looks for a group named
    "alice", finds none and reports "Group not found" with the group names
    ["sudo"] as found.  UserInGroup(["bob","sudo"]) likewise lists ["sudo"],
    not ["alice"], and the second parameter never matters. *)
Theorem UserInGroup_reads_group_from_first_parameter (sys : System) :
  ReadFile sys "/etc/group" = Some "sudo:x:27:alice" ->
  UserInGroup sys ["alice"; "sudo"]
  = Returns (genericError "Group not found" "alice" ["sudo"])
  /\ UserInGroup sys ["bob"; "sudo"]
     = Returns (genericError "Group not found" "bob" ["sudo"])
  /\ UserInGroup sys ["alice"; "sudo"] <> Returns (0, "")
  /\ forall user group, UserInGroup sys [user; group] = UserInGroup sys [user; user].
Proof.
  intros Hfile.
  assert (Hgroups : getGroups sys = Returns [mkGroup "sudo" 27 ["alice"]]).
  { rewrite (getGroups_of_file sys _ Hfile). reflexivity. }
  assert (Hrun : forall u, String.eqb "sudo" u = false ->
            UserInGroup sys [u; "sudo"]
            = Returns (genericError "Group not found" u ["sudo"])).
  { intros u Hu. unfold UserInGroup. cbn [index nth_error bind].
    rewrite Hgroups. cbn [bind UserInGroupFrom Name]. rewrite Hu.
    unfold groupNotFound. rewrite Hgroups. reflexivity. }
  repeat split.
  - apply Hrun. reflexivity.
  - apply Hrun. reflexivity.
  - rewrite Hrun by reflexivity. discriminate.
Qed.

Lemma UserInGroup_reads_group_from_first_parameter_witness :
  UserInGroup (withFile "/etc/group" "sudo:x:27:alice" bareSystem)
    ["alice"; "sudo"]
  = Returns (genericError "Group not found" "alice" ["sudo"]).
Proof.
  exact (proj1 (UserInGroup_reads_group_from_first_parameter
                  (withFile "/etc/group" "sudo:x:27:alice" bareSystem)
                  eq_refl)).
Defined.

(** ** Failures of the environment are fatal *)

Lemma getRunningContainers_failure (sys : System) (out e : string) :
  CombinedOutput sys ["docker"; "ps"; "-a"] = (out, Some e) ->
  getRunningContainers sys
  = Fatal (if strings.Contains out "permission denied"
           then "Permission denied when running: docker ps -a"
           else "Error while running `docker ps -a`" ++ nl ++ tab ++ e).
Proof.
  intros Hcmd. unfold getRunningContainers. rewrite Hcmd.
  destruct (strings.Contains out "permission denied"); reflexivity.
Qed.

(** C8: when `docker ps -a` fails, DockerRunning ends in log.Fatal: with
    "Permission denied when running: docker ps -a" when the combined output
    contains "permission denied", with "Error while running `docker ps -a`"
    and the error otherwise.  Whatever the parameters, it returns no check
    result. *)
Theorem DockerRunning_command_failure_is_fatal (sys : System)
  (out e : string) :
  CombinedOutput sys ["docker"; "ps"; "-a"] = (out, Some e) ->
  (forall name rest,
      DockerRunning sys (name :: rest)
      = Fatal (if strings.Contains out "permission denied"
               then "Permission denied when running: docker ps -a"
               else "Error while running `docker ps -a`" ++ nl ++ tab ++ e))
  /\ (forall parameters r, DockerRunning sys parameters <> Returns r).
Proof.
  intros Hcmd.
  assert (Hfatal : forall name rest,
      DockerRunning sys (name :: rest)
      = Fatal (if strings.Contains out "permission denied"
               then "Permission denied when running: docker ps -a"
               else "Error while running `docker ps -a`" ++ nl ++ tab ++ e)).
  { intros name rest. unfold DockerRunning. cbn [index nth_error bind].
    rewrite (getRunningContainers_failure sys out e Hcmd). reflexivity. }
  split; [exact Hfatal|].
  intros [|name rest] r.
  - discriminate.
  - rewrite Hfatal. discriminate.
Qed.

Lemma DockerRunning_command_failure_is_fatal_witness :
  DockerRunning deniedDocker ["web"]
  = Fatal "Permission denied when running: docker ps -a"
  /\ DockerRunning bareSystem ["web"]
     = Fatal ("Error while running `docker ps -a`" ++ nl ++ tab
              ++ "executable file not found in $PATH").
Proof.
  split.
  - exact (proj1 (DockerRunning_command_failure_is_fatal deniedDocker
                    _ _ eq_refl) "web" []).
  - exact (proj1 (DockerRunning_command_failure_is_fatal bareSystem
                    _ _ eq_refl) "web" []).
Defined.

Lemma getGroupsFrom_unparsable (table : list (list string)) :
  existsb unparsableId table = true ->
  forall groups, isFatal (getGroupsFrom table groups) = true.
Proof.
  induction table as [|line rest IH]; simpl; intros Hex groups.
  - discriminate.
  - destruct line as [|f0 [|f1 [|f2 [|f3 more]]]]; simpl in Hex;
      try (apply IH; exact Hex).
    destruct (strconv.ParseInt f2 10) as [gid|]; simpl in Hex.
    + apply IH. exact Hex.
    + reflexivity.
Qed.

Lemma isFatal_bind {A B : Type} (m : outcome A) (k : A -> outcome B) :
  isFatal m = true -> isFatal (bind m k) = true.
Proof. destruct m; simpl; congruence. Qed.

(** C3: the four input failures end in log.Fatal and give no check result:
    a protocol other than "TCP" and "UDP" in canConnect, an IP version other
    than 4 and 6 in getInterfaceIPs, a timeout that time.ParseDuration
    rejects in getConnectionWorker, and in getGroups a line of /etc/group
    with all four fields whose id field strconv.ParseInt rejects (then
    GroupExists, UserInGroup and GroupId are fatal too, given their
    parameters). *)
Theorem input_failures_are_fatal (sys : System) :
  (forall host protocol timeout,
      protocol <> "TCP" -> protocol <> "UDP" ->
      canConnect sys host protocol timeout
      = Fatal ("Unsupported protocol: " ++ protocol))
  /\ (forall name version,
         version <> 4 -> version <> 6 ->
         getInterfaceIPs sys name version
         = Fatal ("Misconfigured JSON: Unsupported IP version: "
                  ++ fmt.Sprint version))
  /\ (forall host protocol timeoutstr,
         ParseDuration sys timeoutstr = None ->
         getConnectionWorker sys host protocol timeoutstr
         = Fatal ("Configuration error: Could not parse duration: "
                  ++ timeoutstr))
  /\ (forall data,
         ReadFile sys "/etc/group" = Some data ->
         existsb unparsableId
           (separateString (Exact newline) (Exact ":") data) = true ->
         isFatal (getGroups sys) = true
         /\ (forall name rest, isFatal (GroupExists sys (name :: rest)) = true)
         /\ (forall user rest, isFatal (UserInGroup sys (user :: rest)) = true)
         /\ (forall name id rest,
                isFatal (GroupId sys (name :: id :: rest)) = true)).
Proof.
  repeat apply conj.
  - intros host protocol timeout Htcp Hudp. unfold canConnect.
    destruct (String.eqb_spec protocol "TCP") as [E|_]; [contradiction|].
    destruct (String.eqb_spec protocol "UDP") as [E|_]; [contradiction|].
    reflexivity.
  - intros name version H4 H6. unfold getInterfaceIPs.
    destruct (Z.eqb_spec version 4) as [E|_]; [contradiction|].
    destruct (Z.eqb_spec version 6) as [E|_]; [contradiction|].
    reflexivity.
  - intros host protocol timeoutstr Hdur. unfold getConnectionWorker.
    rewrite Hdur. reflexivity.
  - intros data Hfile Hbad.
    assert (Hfatal : isFatal (getGroups sys) = true).
    { rewrite (getGroups_of_file sys data Hfile).
      apply getGroupsFrom_unparsable. exact Hbad. }
    repeat apply conj.
    + exact Hfatal.
    + intros name rest. unfold GroupExists, doesGroupExist.
      cbn [index nth_error bind].
      destruct (getGroups sys); simpl in *; congruence.
    + intros user rest. unfold UserInGroup. cbn [index nth_error bind].
      apply isFatal_bind. exact Hfatal.
    + intros name id rest. unfold GroupId. cbn [index nth_error bind].
      destruct (parseMyInt id) eqn:Hid; cbn [bind]; try reflexivity.
      * apply isFatal_bind. exact Hfatal.
      * unfold parseMyInt in Hid.
        destruct (strconv.ParseInt id 10); discriminate.
Qed.

Lemma input_failures_are_fatal_witness :
  canConnect bareSystem "example.org:80" "SCTP" 0
  = Fatal "Unsupported protocol: SCTP"
  /\ getInterfaceIPs bareSystem "eth0" 5
     = Fatal "Misconfigured JSON: Unsupported IP version: 5"
  /\ getConnectionWorker bareSystem "example.org:80" "TCP" "soon"
     = Fatal "Configuration error: Could not parse duration: soon"
  /\ isFatal (getGroups (withFile "/etc/group" "sudo:x:abc:alice" bareSystem))
     = true.
Proof.
  pose proof (input_failures_are_fatal bareSystem) as (Hproto & Hver & Hdur & _).
  pose proof (input_failures_are_fatal
                (withFile "/etc/group" "sudo:x:abc:alice" bareSystem))
    as (_ & _ & _ & Hgroups).
  repeat apply conj.
  - apply Hproto; discriminate.
  - apply (Hver "eth0" 5); discriminate.
  - apply Hdur. reflexivity.
  - apply (Hgroups "sudo:x:abc:alice"); reflexivity.
Defined.

(** ** The check contract *)

Section Contract.

Lemma contract_success : respectsContract (Returns (0, "")).
Proof.
  intros r E. injection E as <-. repeat split; simpl; auto. discriminate.
Qed.

Lemma contract_failure (msg : string) :
  msg <> "" -> respectsContract (Returns (1, msg)).
Proof.
  intros Hmsg r E. injection E as <-. repeat split; simpl; auto.
  discriminate.
Qed.

Lemma genericError_message (label wanted : string) (found : list string) :
  fst (genericError label wanted found) = 1
  /\ snd (genericError label wanted found) <> "".
Proof.
  split; [reflexivity|]. unfold genericError; simpl.
  destruct label; simpl; discriminate.
Qed.

Lemma contract_genericError (label wanted : string) (found : list string) :
  respectsContract (Returns (genericError label wanted found)).
Proof.
  destruct (genericError_message label wanted found) as [Hc Hm].
  intros r E. injection E as <-. repeat split; auto.
  rewrite Hc. discriminate.
Qed.

Lemma contract_fatal (msg : string) : respectsContract (Fatal msg).
Proof. intros r E. discriminate. Qed.

Lemma contract_panics (p : panic) : respectsContract (Panics p).
Proof. intros r E. discriminate. Qed.

Lemma contract_bind {A : Type} (m : outcome A)
  (k : A -> outcome CheckResult) :
  (forall a, respectsContract (k a)) -> respectsContract (bind m k).
Proof.
  intros Hk. destruct m; simpl;
    [apply Hk | apply contract_fatal | apply contract_panics].
Qed.

End Contract.

(** One step of a contract proof: a bind, a branch, or a final result. *)
Ltac contract_step :=
  first
    [ apply contract_success
    | apply contract_genericError
    | apply contract_fatal
    | apply contract_panics
    | apply contract_failure; simpl; discriminate
    | apply contract_bind; intros
    | progress cbv zeta
    | match goal with
      | |- respectsContract (if ?b then _ else _) => destruct b
      | |- respectsContract (match ?x with _ => _ end) => destruct x
      end ].

Ltac contract := repeat contract_step.

Lemma groupNotFound_contract (sys : System) (name : string) :
  respectsContract (groupNotFound sys name).
Proof. unfold groupNotFound. contract. Qed.

Lemma UserInGroupFrom_contract (sys : System) (groups : list Group)
  (user group : string) :
  respectsContract (UserInGroupFrom sys groups user group).
Proof.
  induction groups as [|g rest IH]; simpl.
  - apply groupNotFound_contract.
  - destruct (String.eqb (Name g) group); [contract | exact IH].
Qed.

Lemma GroupIdFrom_contract (sys : System) (groups : list Group)
  (name : string) (id : Z) :
  respectsContract (GroupIdFrom sys groups name id).
Proof.
  induction groups as [|g rest IH]; simpl.
  - apply groupNotFound_contract.
  - destruct (String.eqb (Name g) name); [contract | exact IH].
Qed.

Lemma genericUserField_contract (sys : System) (u f v : string) :
  respectsContract (genericUserField sys u f v).
Proof. unfold genericUserField. contract. Qed.

Lemma getIPWorker_contract (sys : System) (name address : string) (v : Z) :
  respectsContract (getIPWorker sys name address v).
Proof. unfold getIPWorker. contract. Qed.

Lemma getConnectionWorker_contract (sys : System) (host proto t : string) :
  respectsContract (getConnectionWorker sys host proto t).
Proof. unfold getConnectionWorker. contract. Qed.

Lemma routingTableMatch_contract (sys : System) (col : nat) (str : string) :
  respectsContract (routingTableMatch sys col str).
Proof. unfold routingTableMatch. contract. Qed.

Create HintDb contract.

#[local] Hint Resolve groupNotFound_contract UserInGroupFrom_contract
  GroupIdFrom_contract genericUserField_contract getIPWorker_contract
  getConnectionWorker_contract routingTableMatch_contract : contract.

(** C2: whatever a domain check returns is a well-formed check result: the
    exit code is 0 or 1, with exit code 0 the message is empty, and with
    exit code 1 the message is not empty. *)
Theorem checks_return_well_formed_results (name : string) (arity : nat)
  (check : Check) (sys : System) (parameters : list string)
  (r : CheckResult) :
  In (name, arity, check) domainChecks ->
  check sys parameters = Returns r ->
  (fst r = 0 \/ fst r = 1)
  /\ (fst r = 0 -> snd r = "")
  /\ (fst r = 1 -> snd r <> "").
Proof.
  intros Hin. revert r. change (respectsContract (check sys parameters)).
  simpl in Hin.
  repeat (destruct Hin as [Hin|Hin]; [injection Hin as _ _ <-|]);
    try contradiction.
  all: contract; auto with contract.
Qed.

Lemma checks_return_well_formed_results_witness :
  let r := genericError "Group not found" "wheel" ["sudo"] in
  (fst r = 0 \/ fst r = 1)
  /\ (fst r = 0 -> snd r = "")
  /\ (fst r = 1 -> snd r <> "").
Proof.
  exact (checks_return_well_formed_results "GroupExists" 1 GroupExists
           (withFile "/etc/group" "sudo:x:27:alice" bareSystem) ["wheel"]
           (genericError "Group not found" "wheel" ["sudo"])
           (or_introl eq_refl) eq_refl).
Defined.

(** ** Parameter lists that are too short *)

(** Every check but UserInGroup reads its parameters by index before it
    does anything else, so a list shorter than its arity panics at the first
    missing index. *)
Lemma short_parameters_panic (name : string) (arity : nat) (check : Check)
  (sys : System) (parameters : list string) :
  In (name, arity, check) domainChecks ->
  name <> "UserInGroup" ->
  (length parameters < arity)%nat ->
  check sys parameters
  = Panics (IndexOutOfRange (length parameters) (length parameters)).
Proof.
  intros Hin Hname Hlen. simpl in Hin.
  repeat (destruct Hin as [Hin|Hin];
          [injection Hin as <- <- <-|]); try contradiction;
    try (exfalso; apply Hname; reflexivity);
    destruct parameters as [|p0 [|p1 rest]]; simpl in Hlen;
    try lia; reflexivity.
Qed.

Lemma UserInGroup_no_parameters (sys : System) :
  UserInGroup sys [] = Panics (IndexOutOfRange 0 0).
Proof. reflexivity. Qed.

(** C10 (as the code has it): UserInGroup takes two positional parameters
    (user, group) but indexes its parameter list at 0 only, so with the
    single parameter "alice" and /etc/group holding "sudo:x:27:alice" it
    hits no out-of-range index: it returns the check result "Group not
    found" for "alice". *)
Theorem UserInGroup_one_parameter_returns (sys : System) :
  ReadFile sys "/etc/group" = Some "sudo:x:27:alice" ->
  In ("UserInGroup", 2%nat, UserInGroup) domainChecks
  /\ (length ["alice"] < 2)%nat
  /\ UserInGroup sys ["alice"]
     = Returns (genericError "Group not found" "alice" ["sudo"]).
Proof.
  intros Hfile. split; [simpl; tauto|]. split; [simpl; lia|].
  assert (Hgroups : getGroups sys = Returns [mkGroup "sudo" 27 ["alice"]]).
  { rewrite (getGroups_of_file sys _ Hfile). reflexivity. }
  unfold UserInGroup. cbn [index nth_error bind]. rewrite Hgroups.
  cbn [bind UserInGroupFrom Name String.eqb]. unfold groupNotFound.
  rewrite Hgroups. reflexivity.
Qed.

Lemma UserInGroup_one_parameter_returns_witness :
  UserInGroup (withFile "/etc/group" "sudo:x:27:alice" bareSystem) ["alice"]
  = Returns (genericError "Group not found" "alice" ["sudo"]).
Proof.
  exact (proj2 (proj2 (UserInGroup_one_parameter_returns
                         (withFile "/etc/group" "sudo:x:27:alice" bareSystem)
                         eq_refl))).
Defined.

(** ** The gateway's interface *)

Lemma index_app_length {A : Type} (prefix : list A) (x : A) (rest : list A) :
  index (prefix ++ x :: rest)%list (length prefix) = Returns x.
Proof.
  unfold index. rewrite nth_error_app2 by lia.
  rewrite Nat.sub_diag. reflexivity.
Qed.

(** When the names are the IPs themselves the loop returns the IP it
    stops at. *)
Lemma gatewayInterfaceFrom_same (suffix prefix : list string) :
  gatewayInterfaceFrom suffix (prefix ++ suffix)%list (length prefix)
  = Returns (firstGateway suffix).
Proof.
  revert prefix. induction suffix as [|ip rest IH]; intros prefix.
  - reflexivity.
  - unfold firstGateway. simpl.
    destruct (negb (String.eqb ip "0.0.0.0")).
    + assert (Hlen : (length (prefix ++ ip :: rest)%list <? length prefix)%nat
                     = false).
      { apply Nat.ltb_ge. rewrite length_app. lia. }
      rewrite Hlen. apply index_app_length.
    + specialize (IH (prefix ++ [ip])%list).
      rewrite <- app_assoc, length_app in IH. simpl in IH.
      rewrite Nat.add_1_r in IH. exact IH.
Qed.

Lemma getGatewayInterface_column (sys : System) (col : list string) :
  routingTableColumn sys 1 = Returns col ->
  getGatewayInterface sys = Returns (firstGateway col).
Proof.
  intros Hcol. unfold getGatewayInterface. rewrite Hcol. simpl.
  apply (gatewayInterfaceFrom_same col []).
Qed.

(** C9: GatewayInterface takes both its gateway IPs and its interface names
    from column 1 of the routing table.  It returns (0, "") exactly when
    that column is obtained and the first parameter is its first entry other
    than "0.0.0.0" (the empty string when there is none); and its outcome is
    a function of column 1 alone, so the interface column 7 plays no part. *)
Theorem GatewayInterface_compares_gateway_column (sys : System)
  (name : string) (rest : list string) :
  (GatewayInterface sys (name :: rest) = Returns (0, "")
   <-> exists col, routingTableColumn sys 1 = Returns col
                   /\ name = firstGateway col)
  /\ (forall sys' parameters,
         routingTableColumn sys' 1 = routingTableColumn sys 1 ->
         GatewayInterface sys' parameters = GatewayInterface sys parameters).
Proof.
  split.
  - unfold GatewayInterface. cbn [index nth_error bind]. split.
    + destruct (routingTableColumn sys 1) as [col| |] eqn:Hcol.
      * rewrite (getGatewayInterface_column sys col Hcol). cbn [bind].
        destruct (String.eqb_spec name (firstGateway col)) as [E|_].
        -- intros _. exists col. split; [reflexivity | exact E].
        -- cbv zeta. unfold genericError. discriminate.
      * unfold getGatewayInterface. rewrite Hcol. discriminate.
      * unfold getGatewayInterface. rewrite Hcol. discriminate.
    + intros (col & Hcol & ->).
      rewrite (getGatewayInterface_column sys col Hcol). cbn [bind].
      rewrite String.eqb_refl. reflexivity.
  - intros sys' parameters Hsame.
    unfold GatewayInterface, getGatewayInterface. rewrite Hsame. reflexivity.
Qed.

Lemma GatewayInterface_compares_gateway_column_witness :
  GatewayInterface routedSystem ["192.168.1.1"] = Returns (0, "")
  /\ GatewayInterface routedSystem ["eth0"] <> Returns (0, "").
Proof.
  split.
  - apply (proj1 (GatewayInterface_compares_gateway_column routedSystem
                    "192.168.1.1" [])).
    exists ["192.168.1.1"; "0.0.0.0"]. split; reflexivity.
  - intros E.
    apply (proj1 (GatewayInterface_compares_gateway_column routedSystem
                    "eth0" [])) in E.
    destruct E as (col & Hcol & Hname).
    vm_compute in Hcol. injection Hcol as <-. discriminate.
Defined.

(** ** What a diagnostic message mentions *)

Lemma append_assoc (a b c : string) : (a ++ b) ++ c = a ++ b ++ c.
Proof. induction a as [|x a IH]; simpl; [reflexivity | now rewrite IH]. Qed.

Lemma append_nil_r (a : string) : a ++ "" = a.
Proof. induction a as [|x a IH]; simpl; [reflexivity | now rewrite IH]. Qed.

Lemma occursIn_refl (s : string) : occursIn s s.
Proof. exists "", "". simpl. now rewrite append_nil_r. Qed.

Lemma occursIn_prepend (sub a s : string) :
  occursIn sub s -> occursIn sub (a ++ s).
Proof.
  intros (before & after & ->). exists (a ++ before), after.
  now rewrite append_assoc.
Qed.

Lemma occursIn_append (sub s a : string) :
  occursIn sub s -> occursIn sub (s ++ a).
Proof.
  intros (before & after & ->). exists before, (after ++ a).
  now rewrite !append_assoc.
Qed.

Lemma occursIn_Join (x sep : string) (elems : list string) :
  In x elems -> occursIn x (strings.Join elems sep).
Proof.
  induction elems as [|e rest IH]; intros Hin; [contradiction|].
  destruct rest as [|e' rest'].
  - destruct Hin as [->|[]]. apply occursIn_refl.
  - change (strings.Join (e :: e' :: rest') sep)
      with (e ++ sep ++ strings.Join (e' :: rest') sep).
    destruct Hin as [->|Hin].
    + apply occursIn_append. apply occursIn_refl.
    + apply occursIn_prepend, occursIn_prepend, IH, Hin.
Qed.

Lemma occursIn_renderFound (x : string) (found : list string) :
  In x found -> occursIn x (renderFound found).
Proof.
  destruct found as [|e rest]; [contradiction|].
  intros Hin. apply (occursIn_Join x ", " (e :: rest) Hin).
Qed.

(** The message of the diagnostic formatter names the wanted value and
    every found value. *)
Lemma genericError_mentions (label wanted : string) (found : list string) :
  fst (genericError label wanted found) = 1
  /\ occursIn wanted (snd (genericError label wanted found))
  /\ forall x, In x found -> occursIn x (snd (genericError label wanted found)).
Proof.
  unfold genericError; simpl. split; [reflexivity|]. split.
  - apply occursIn_prepend.
    change (occursIn wanted
              ((nl ++ tab ++ "Wanted: ")
               ++ wanted ++ nl ++ tab ++ "Found: " ++ renderFound found)).
    apply occursIn_prepend, occursIn_append, occursIn_refl.
  - intros x Hin. apply occursIn_prepend.
    change (occursIn x
              ((nl ++ tab ++ "Wanted: ")
               ++ wanted ++ (nl ++ tab ++ "Found: ") ++ renderFound found)).
    apply occursIn_prepend, occursIn_prepend, occursIn_prepend.
    apply occursIn_renderFound, Hin.
Qed.

Lemma strIn_In (s : string) (slice : list string) :
  strIn s slice = true <-> In s slice.
Proof.
  unfold strIn. rewrite existsb_exists. split.
  - intros (x & Hin & E). apply String.eqb_eq in E. now subst.
  - intros Hin. exists s. split; [exact Hin | apply String.eqb_refl].
Qed.

(** ** DockerImage *)

(** C6: when `docker images` succeeds, DockerImage returns (0, "") exactly
    when its first parameter is in column 0 of the output with the header
    row dropped; otherwise it returns exit code 1 with a message in which
    the searched-for name and every image name found occur. *)
Theorem DockerImage_searches_first_column (sys : System) (out name : string)
  (rest : list string) :
  CombinedOutput sys ["docker"; "images"] = (out, None) ->
  let images := getColumnNoHeader 0 (stringToSlice out) in
  (DockerImage sys (name :: rest) = Returns (0, "") <-> In name images)
  /\ (~ In name images ->
      exists msg,
        DockerImage sys (name :: rest) = Returns (1, msg)
        /\ occursIn name msg
        /\ forall image, In image images -> occursIn image msg).
Proof.
  intros Hcmd images.
  assert (Hrun : DockerImage sys (name :: rest)
                 = if strIn name images then Returns (0, "")
                   else Returns (genericError "Docker image was not found"
                                   name images)).
  { unfold DockerImage, commandColumnNoHeader, commandOutput.
    cbn [index nth_error bind]. rewrite Hcmd. reflexivity. }
  rewrite Hrun. split.
  - destruct (strIn name images) eqn:Hin.
    + apply strIn_In in Hin. tauto.
    + split; [unfold genericError; discriminate|].
      intros Hin'. apply strIn_In in Hin'. congruence.
  - intros Hnot.
    destruct (strIn name images) eqn:Hin.
    + apply strIn_In in Hin. contradiction.
    + destruct (genericError_mentions "Docker image was not found"
                  name images) as (Hcode & Hname & Hfound).
      exists (snd (genericError "Docker image was not found" name images)).
      split; [reflexivity|]. split; assumption.
Qed.

Lemma DockerImage_searches_first_column_witness :
  DockerImage dockerSystem ["ubuntu"] = Returns (0, "")
  /\ exists msg,
       DockerImage dockerSystem ["nonexistent-image"] = Returns (1, msg)
       /\ occursIn "nonexistent-image" msg
       /\ occursIn "ubuntu" msg /\ occursIn "nginx" msg.
Proof.
  split.
  - apply (proj1 (DockerImage_searches_first_column dockerSystem
                    dockerImagesOutput "ubuntu" [] eq_refl)).
    left. reflexivity.
  - destruct (proj2 (DockerImage_searches_first_column dockerSystem
                       dockerImagesOutput "nonexistent-image" [] eq_refl))
      as (msg & Hrun & Hname & Hfound).
    + intros [E|[E|[]]]; discriminate E.
    + exists msg. repeat split; try assumption.
      * apply Hfound. left. reflexivity.
      * apply Hfound. right. left. reflexivity.
Defined.

(** ** Port *)

Lemma isUpperHex_digit (c : ascii) :
  regexp.isUpperHex c = true ->
  Ascii.eqb c "+" = false /\ Ascii.eqb c "-" = false
  /\ exists d, strconv.digitVal c = Some d /\ 0 <= d < 16.
Proof.
  destruct c as [[] [] [] [] [] [] [] []]; intros H;
    try discriminate H; (split; [reflexivity|]); (split; [reflexivity|]);
    eexists; (split; [vm_compute; reflexivity | lia]).
Qed.

(** Four upper-case hexadecimal digits always parse in base 16. *)
Lemma ParseInt_four_hex (h1 h2 h3 h4 : ascii) :
  regexp.isUpperHex h1 = true -> regexp.isUpperHex h2 = true ->
  regexp.isUpperHex h3 = true -> regexp.isUpperHex h4 = true ->
  exists n,
    strconv.ParseInt (String h1 (String h2 (String h3 (String h4 "")))) 16
    = Some n /\ 0 <= n < 65536.
Proof.
  intros H1 H2 H3 H4.
  destruct (isUpperHex_digit h1 H1) as (Hplus & Hminus & d1 & Hd1 & R1).
  destruct (isUpperHex_digit h2 H2) as (_ & _ & d2 & Hd2 & R2).
  destruct (isUpperHex_digit h3 H3) as (_ & _ & d3 & Hd3 & R3).
  destruct (isUpperHex_digit h4 H4) as (_ & _ & d4 & Hd4 & R4).
  exists (((d1 * 16 + d2) * 16 + d3) * 16 + d4). split; [|lia].
  unfold strconv.ParseInt. rewrite Hplus, Hminus.
  unfold strconv.ParseUint. cbn [strconv.parseDigits].
  rewrite Hd1, Hd2, Hd3, Hd4.
  assert (L1 : (d1 <? 16) = true) by (apply Z.ltb_lt; lia).
  assert (L2 : (d2 <? 16) = true) by (apply Z.ltb_lt; lia).
  assert (L3 : (d3 <? 16) = true) by (apply Z.ltb_lt; lia).
  assert (L4 : (d4 <? 16) = true) by (apply Z.ltb_lt; lia).
  rewrite L1, L2, L3, L4. cbn [negb andb].
  change (2 ^ 63) with 9223372036854775808.
  assert (C : (9223372036854775808
               <=? (((0 * 16 + d1) * 16 + d2) * 16 + d3) * 16 + d4) = false)
    by (apply Z.leb_gt; lia).
  rewrite C. reflexivity.
Qed.

(** What the port pattern matches: nothing, or a colon and four upper-case
    hexadecimal digits. *)
Lemma FindPort_shape (s : string) :
  regexp.FindPort s = ""
  \/ exists h1 h2 h3 h4,
       regexp.FindPort s
       = String ":" (String h1 (String h2 (String h3 (String h4 ""))))
       /\ regexp.isUpperHex h1 = true /\ regexp.isUpperHex h2 = true
       /\ regexp.isUpperHex h3 = true /\ regexp.isUpperHex h4 = true.
Proof.
  induction s as [|c rest IH]; [left; reflexivity|].
  cbn [regexp.FindPort].
  destruct rest as [|h1 [|h2 [|h3 [|h4 more]]]]; try exact IH.
  destruct (Ascii.eqb c ":") eqn:Hc; cbn [andb]; [|exact IH].
  destruct (regexp.isUpperHex h1) eqn:H1; cbn [andb]; [|exact IH].
  destruct (regexp.isUpperHex h2) eqn:H2; cbn [andb]; [|exact IH].
  destruct (regexp.isUpperHex h3) eqn:H3; cbn [andb]; [|exact IH].
  destruct (regexp.isUpperHex h4) eqn:H4; cbn [andb]; [|exact IH].
  right. apply Ascii.eqb_eq in Hc. subst c.
  exists h1, h2, h3, h4. repeat split; assumption.
Qed.

Lemma hexPortsOf_parse (addrs : list string) (hex : string) :
  In hex (hexPortsOf addrs) ->
  exists n, strconv.ParseInt hex 16 = Some n /\ 0 <= n < 65536.
Proof.
  unfold hexPortsOf. rewrite in_flat_map. intros (address & _ & Hin).
  destruct (FindPort_shape address) as [E|(h1 & h2 & h3 & h4 & E & H)].
  - rewrite E in Hin. contradiction.
  - rewrite E in Hin. destruct Hin as [<-|[]]. simpl.
    destruct H as (H1 & H2 & H3 & H4). now apply ParseInt_four_hex.
Qed.

Lemma openPortsFrom_parse (hexPorts : list string) :
  (forall hex, In hex hexPorts -> exists n, strconv.ParseInt hex 16 = Some n) ->
  forall ports,
  exists more,
    openPortsFrom hexPorts ports = Returns (ports ++ more)%list
    /\ Forall2 (fun hex n => strconv.ParseInt hex 16 = Some n) hexPorts more.
Proof.
  induction hexPorts as [|hex rest IH]; intros Hparse ports.
  - exists []. rewrite app_nil_r. split; [reflexivity | constructor].
  - destruct (Hparse hex (or_introl eq_refl)) as (n & Hn).
    destruct (IH (fun h Hin => Hparse h (or_intror Hin)) (ports ++ [n])%list)
      as (more & Hrun & Hall).
    exists (n :: more). split.
    + cbn [openPortsFrom]. unfold strHexToDecimal. rewrite Hn. cbn [bind].
      unfold int. rewrite Hrun, <- app_assoc. reflexivity.
    + constructor; assumption.
Qed.

Lemma Forall2_In_l {A B : Type} (R : A -> B -> Prop) (xs : list A)
  (ys : list B) (x : A) :
  Forall2 R xs ys -> In x xs -> exists y, In y ys /\ R x y.
Proof.
  induction 1 as [|x' y' xs' ys' HR _ IH]; intros Hin; [contradiction|].
  destruct Hin as [->|Hin].
  - exists y'. split; [left; reflexivity | exact HR].
  - destruct (IH Hin) as (y & Hy & HRy). exists y. split; [right|]; assumption.
Qed.

Lemma existsb_eqb_In (n : Z) (open : list Z) :
  existsb (fun p => p =? n) open = true <-> In n open.
Proof.
  rewrite existsb_exists. split.
  - intros (p & Hin & E). apply Z.eqb_eq in E. now subst.
  - intros Hin. exists n. split; [exact Hin | apply Z.eqb_refl].
Qed.

Lemma getOpenPorts_of_file (sys : System) (data : string) :
  ReadFile sys "/proc/net/tcp" = Some data ->
  exists open,
    getOpenPorts sys = Returns open
    /\ Forall2 (fun hex n => strconv.ParseInt hex 16 = Some n)
         (hexPortsOf (getColumnNoHeader 1 (stringToSlice data))) open.
Proof.
  intros Hfile.
  destruct (openPortsFrom_parse
              (hexPortsOf (getColumnNoHeader 1 (stringToSlice data)))
              (fun hex Hin =>
                 match hexPortsOf_parse _ hex Hin with
                 | ex_intro _ n (conj Hn _) => ex_intro _ n Hn
                 end) [])
    as (open & Hrun & Hall).
  exists open. split; [|exact Hall].
  unfold getOpenPorts, getHexPorts, fileToString. rewrite Hfile.
  cbn [bind]. exact Hrun.
Qed.

Lemma Port_run (sys : System) (open : list Z) (p : string) (n : Z)
  (rest : list string) :
  getOpenPorts sys = Returns open ->
  strconv.ParseInt p 10 = Some n ->
  Port sys (p :: rest)
  = if existsb (fun q => q =? n) open then Returns (0, "")
    else Returns (genericError "Port not open" (fmt.Sprint n)
                    (map fmt.Sprint open)).
Proof.
  intros Hopen Hp. unfold Port, parseMyInt. cbn [index nth_error bind].
  rewrite Hp. cbn [bind]. rewrite Hopen. reflexivity.
Qed.

(** C5: Port reads the local addresses of /proc/net/tcp (column 1, header
    dropped), takes from each the four hexadecimal digits after the colon,
    converts them to decimal and compares them with its parameter parsed as
    an integer: it returns (0, "") exactly when the parameter is one of the
    open ports, and otherwise the "Port not open" diagnostic listing the
    open ports in decimal.  With the local address 0100007F:1F90 in the
    file, Port(["8080"]) returns (0, ""), and Port(["9999"]), when 9999 is
    not open, returns exit code 1 with a message that lists 8080. *)
Theorem Port_compares_decimal_ports (sys : System) (data : string) :
  ReadFile sys "/proc/net/tcp" = Some data ->
  let addresses := getColumnNoHeader 1 (stringToSlice data) in
  exists open,
    getOpenPorts sys = Returns open
    /\ Forall2 (fun hex n => strconv.ParseInt hex 16 = Some n)
         (hexPortsOf addresses) open
    /\ (forall p n rest,
           strconv.ParseInt p 10 = Some n ->
           (Port sys (p :: rest) = Returns (0, "") <-> In n open)
           /\ (~ In n open ->
               Port sys (p :: rest)
               = Returns (genericError "Port not open" (fmt.Sprint n)
                            (map fmt.Sprint open))))
    /\ (In "0100007F:1F90" addresses ->
        In 8080 open
        /\ Port sys ["8080"] = Returns (0, "")
        /\ (~ In 9999 open ->
            exists msg, Port sys ["9999"] = Returns (1, msg)
                        /\ occursIn "9999" msg /\ occursIn "8080" msg)).
Proof.
  intros Hfile addresses.
  destruct (getOpenPorts_of_file sys data Hfile) as (open & Hopen & Hall).
  fold addresses in Hall.
  exists open. split; [exact Hopen|]. split; [exact Hall|].
  assert (Hgeneral : forall p n rest,
           strconv.ParseInt p 10 = Some n ->
           (Port sys (p :: rest) = Returns (0, "") <-> In n open)
           /\ (~ In n open ->
               Port sys (p :: rest)
               = Returns (genericError "Port not open" (fmt.Sprint n)
                            (map fmt.Sprint open)))).
  { intros p n rest Hp. rewrite (Port_run sys open p n rest Hopen Hp).
    destruct (existsb (fun q => q =? n) open) eqn:Hex.
    - apply existsb_eqb_In in Hex. tauto.
    - assert (Hnot : ~ In n open).
      { intros Hin. apply existsb_eqb_In in Hin. congruence. }
      split; [|reflexivity].
      split; [unfold genericError; discriminate | contradiction]. }
  split; [exact Hgeneral|].
  intros Haddr.
  assert (H8080 : In 8080 open).
  { assert (Hhex : In "1F90" (hexPortsOf addresses)).
    { unfold hexPortsOf. apply in_flat_map.
      exists "0100007F:1F90". split; [exact Haddr | left; reflexivity]. }
    destruct (Forall2_In_l _ _ _ _ Hall Hhex) as (n & Hin & Hn).
    vm_compute in Hn. injection Hn as <-. exact Hin. }
  split; [exact H8080|]. split.
  - apply (proj1 (Hgeneral "8080" 8080 [] eq_refl)). exact H8080.
  - intros H9999.
    destruct (genericError_mentions "Port not open" "9999"
                (map fmt.Sprint open)) as (_ & Hwanted & Hfound).
    exists (snd (genericError "Port not open" "9999" (map fmt.Sprint open))).
    split; [|split].
    + rewrite (proj2 (Hgeneral "9999" 9999 [] eq_refl) H9999). reflexivity.
    + exact Hwanted.
    + apply Hfound. change "8080" with (fmt.Sprint 8080).
      apply in_map. exact H8080.
Qed.

Lemma Port_compares_decimal_ports_witness :
  getOpenPorts listeningSystem = Returns [8080; 22]
  /\ Port listeningSystem ["8080"] = Returns (0, "")
  /\ Port listeningSystem ["9999"]
     = Returns (genericError "Port not open" "9999" ["8080"; "22"]).
Proof.
  destruct (Port_compares_decimal_ports listeningSystem procNetTcp eq_refl)
    as (open & Hopen & _ & Hgeneral & Hfixture).
  assert (E : open = [8080; 22]).
  { vm_compute in Hopen. injection Hopen as <-. reflexivity. }
  subst open. split; [exact Hopen|]. split.
  - apply Hfixture. left. reflexivity.
  - apply (proj2 (Hgeneral "9999" 9999 [] eq_refl)).
    intros [E|[E|[]]]; discriminate E.
Defined.

(** ** getGroups *)

Section SplitJoin.

Variable c : ascii.

Lemma Split_free (f : string) :
  hasChar c f = false -> regexp.Split c f = [f].
Proof.
  induction f as [|a f IH]; simpl; [reflexivity|].
  intros H. apply orb_false_iff in H as [Ha Hf].
  rewrite Ha, (IH Hf). reflexivity.
Qed.

Lemma Split_append (f rest : string) :
  hasChar c f = false ->
  regexp.Split c (f ++ String c rest) = f :: regexp.Split c rest.
Proof.
  induction f as [|a f IH]; simpl.
  - intros _. rewrite Ascii.eqb_refl. reflexivity.
  - intros H. apply orb_false_iff in H as [Ha Hf].
    rewrite Ha, (IH Hf). reflexivity.
Qed.

(** Splitting what was joined gives the fields back. *)
Lemma Split_Join (fields : list string) :
  fields <> [] ->
  forallb (fun f => negb (hasChar c f)) fields = true ->
  regexp.Split c (strings.Join fields (String c "")) = fields.
Proof.
  induction fields as [|e rest IH]; [congruence|].
  intros _ Hfree. simpl in Hfree. apply andb_true_iff in Hfree as [He Hrest].
  apply negb_true_iff in He.
  destruct rest as [|e' rest'].
  - simpl. apply Split_free, He.
  - change (strings.Join (e :: e' :: rest') (String c ""))
      with (e ++ String c (strings.Join (e' :: rest') (String c ""))).
    rewrite (Split_append _ _ He). f_equal.
    apply IH; [discriminate | exact Hrest].
Qed.

Lemma hasChar_append (a b : string) :
  hasChar c (a ++ b) = hasChar c a || hasChar c b.
Proof.
  induction a as [|x a IH]; simpl; [reflexivity|].
  rewrite IH. apply orb_assoc.
Qed.

Lemma hasChar_Join (fields : list string) (sep : string) :
  hasChar c sep = false ->
  forallb (fun f => negb (hasChar c f)) fields = true ->
  hasChar c (strings.Join fields sep) = false.
Proof.
  intros Hsep. induction fields as [|e rest IH]; [reflexivity|].
  intros Hfree. simpl in Hfree. apply andb_true_iff in Hfree as [He Hrest].
  apply negb_true_iff in He.
  destruct rest as [|e' rest']; [exact He|].
  change (strings.Join (e :: e' :: rest') sep)
    with (e ++ sep ++ strings.Join (e' :: rest') sep).
  rewrite !hasChar_append, He, Hsep, (IH Hrest). reflexivity.
Qed.

End SplitJoin.

Lemma plainRow_fields (row : list string) :
  plainRow row = true ->
  row <> []
  /\ forallb (fun f => negb (hasChar ":" f)) row = true
  /\ forallb (fun f => negb (hasChar newline f)) row = true.
Proof.
  intros H. destruct row as [|f fs]; [discriminate|].
  split; [discriminate|]. unfold plainRow in H.
  rewrite forallb_forall in H. split; apply forallb_forall; intros x Hx;
    specialize (H x Hx); unfold plainField in H;
    apply andb_true_iff in H; tauto.
Qed.

(** Under the exact-delimiter policy the tokenizer recovers the rows and
    fields of a rendered file. *)
Lemma separateString_render (rows : list (list string)) :
  forallb plainRow rows = true ->
  renderGroupFile rows <> "" ->
  separateString (Exact newline) (Exact ":") (renderGroupFile rows) = rows.
Proof.
  intros Hrows Hne.
  assert (Hsep : separateString (Exact newline) (Exact ":")
                   (renderGroupFile rows)
                 = map (regexp.Split ":")
                     (regexp.Split newline (renderGroupFile rows))).
  { unfold separateString. destruct (renderGroupFile rows); [congruence|].
    reflexivity. }
  rewrite Hsep. clear Hsep.
  destruct rows as [|row0 rows0]; [exfalso; apply Hne; reflexivity|].
  unfold renderGroupFile.
  change nl with (String newline "").
  rewrite Split_Join.
  - rewrite map_map. rewrite forallb_forall in Hrows.
    rewrite <- (map_id (row0 :: rows0)) at 2. apply map_ext_in.
    intros row Hin. destruct (plainRow_fields row (Hrows row Hin))
      as (Hnil & Hcolon & _).
    apply (Split_Join ":"); assumption.
  - discriminate.
  - rewrite forallb_forall in *. intros line Hin.
    apply in_map_iff in Hin as (row & <- & Hin).
    destruct (plainRow_fields row (Hrows row Hin)) as (_ & _ & Hnl).
    apply negb_true_iff, hasChar_Join; [reflexivity | exact Hnl].
Qed.

Lemma getGroupsFrom_expected (rows : list (list string)) :
  forallb idParses rows = true ->
  forall groups,
    getGroupsFrom rows groups = Returns (groups ++ expectedGroups rows)%list.
Proof.
  induction rows as [|row rest IH]; intros Hids groups.
  - simpl. rewrite app_nil_r. reflexivity.
  - simpl in Hids. apply andb_true_iff in Hids as [Hid Hrest].
    cbn [getGroupsFrom expectedGroups flat_map].
    destruct row as [|f0 [|f1 [|f2 [|f3 more]]]];
      try (rewrite (IH Hrest); reflexivity).
    unfold idParses, expectedGroup in *. cbn [length Nat.ltb Nat.leb nth] in *.
    simpl in Hid.
    destruct (strconv.ParseInt f2 10) as [gid|]; [|discriminate].
    rewrite (IH Hrest). unfold int. rewrite <- app_assoc. reflexivity.
Qed.

Lemma append_cons_not_empty (a : string) (x : ascii) (b : string) :
  a ++ String x b <> "".
Proof. destruct a; discriminate. Qed.

(** A rendered file is empty only for no row at all or one row with one
    empty field; neither holds a group. *)
Lemma renderGroupFile_empty (rows : list (list string)) :
  forallb plainRow rows = true ->
  renderGroupFile rows = "" ->
  expectedGroups rows = [].
Proof.
  intros Hrows Hempty. destruct rows as [|row [|row' rest]].
  - reflexivity.
  - unfold renderGroupFile in Hempty. simpl in Hempty.
    destruct row as [|f [|f' fs]].
    + discriminate Hrows.
    + reflexivity.
    + exfalso. revert Hempty.
      change (strings.Join (f :: f' :: fs) ":")
        with (f ++ String ":" (strings.Join (f' :: fs) ":")).
      apply append_cons_not_empty.
  - exfalso. revert Hempty. unfold renderGroupFile.
    change (map (fun r => strings.Join r ":") (row :: row' :: rest))
      with (strings.Join row ":"
              :: map (fun r => strings.Join r ":") (row' :: rest)).
    set (ls := map (fun r => strings.Join r ":") (row' :: rest)).
    assert (Hls : ls = strings.Join row' ":"
                         :: map (fun r => strings.Join r ":") rest)
      by reflexivity.
    rewrite Hls.
    change (strings.Join (strings.Join row ":" :: strings.Join row' ":"
                            :: map (fun r => strings.Join r ":") rest) nl)
      with (strings.Join row ":"
              ++ String newline
                   (strings.Join (strings.Join row' ":"
                      :: map (fun r => strings.Join r ":") rest) nl)).
    apply append_cons_not_empty.
Qed.

(** C4: getGroups reads /etc/group with newline as row separator and colon
    as column separator.  For a file written from rows of plain fields it
    recovers the fields exactly, skips every row with fewer than 4 fields,
    and for every row with at least 4 fields (whose id parses) produces the
    group with field 0 as Name, the integer parsed from field 2 as Id and
    field 3 split on commas as Users; splitting on commas gives back the
    user names that were joined with commas. *)
Theorem getGroups_recovers_fields (sys : System) (rows : list (list string)) :
  forallb plainRow rows = true ->
  forallb idParses rows = true ->
  ReadFile sys "/etc/group" = Some (renderGroupFile rows) ->
  getGroups sys = Returns (expectedGroups rows)
  /\ (renderGroupFile rows <> "" ->
      separateString (Exact newline) (Exact ":") (renderGroupFile rows) = rows)
  /\ (forall users,
         users <> [] ->
         forallb (fun u => negb (hasChar "," u)) users = true ->
         regexp.Split "," (strings.Join users ",") = users).
Proof.
  intros Hrows Hids Hfile. split; [|split].
  - rewrite (getGroups_of_file sys _ Hfile).
    destruct (string_dec (renderGroupFile rows) "") as [Hempty|Hne].
    + rewrite Hempty. rewrite (renderGroupFile_empty rows Hrows Hempty).
      reflexivity.
    + rewrite (separateString_render rows Hrows Hne).
      apply (getGroupsFrom_expected rows Hids []).
  - apply separateString_render. exact Hrows.
  - intros users Hne Hfree. apply (Split_Join "," users Hne Hfree).
Qed.

Lemma getGroups_recovers_fields_witness :
  getGroups (withFile "/etc/group" "wheel:x:10:alice,bob" bareSystem)
  = Returns [mkGroup "wheel" 10 ["alice"; "bob"]]
  /\ getGroups (withFile "/etc/group"
                  (lines ["root:x:0:"; ""; "bad:x"; "wheel:x:10:alice,bob"])
                  bareSystem)
     = Returns [mkGroup "root" 0 [""]; mkGroup "wheel" 10 ["alice"; "bob"]].
Proof.
  split.
  - exact (proj1 (getGroups_recovers_fields
                    (withFile "/etc/group" "wheel:x:10:alice,bob" bareSystem)
                    [["wheel"; "x"; "10"; "alice,bob"]]
                    eq_refl eq_refl eq_refl)).
  - exact (proj1 (getGroups_recovers_fields
                    (withFile "/etc/group"
                       (lines ["root:x:0:"; ""; "bad:x";
                               "wheel:x:10:alice,bob"])
                       bareSystem)
                    [["root"; "x"; "0"; ""]; [""]; ["bad"; "x"];
                     ["wheel"; "x"; "10"; "alice,bob"]]
                    eq_refl eq_refl eq_refl)).
Defined.

(** ** The run-of-whitespace policy *)

Lemma lead_body (s : string) : lead s ++ body s = s.
Proof. destruct s as [|a r]; simpl; [reflexivity|]. now destruct (isSpace a). Qed.

Lemma singleSpaced_tail (a : ascii) (r : string) :
  singleSpaced (String a r) = true -> singleSpaced r = true.
Proof.
  destruct r as [|b r']; [reflexivity|]. cbn [singleSpaced].
  intros H. apply andb_true_iff in H. tauto.
Qed.

(** A field followed by a run of two or more whitespace characters ends at
    that run, whatever single spaces it holds. *)
Lemma scanRuns_field (f s ws : string) (fields : list string) :
  scanRuns s = (ws, fields) ->
  (2 <= String.length ws)%nat ->
  singleSpaced f = true ->
  endsInContent f = true ->
  scanRuns (f ++ s) = (lead f, body f :: fields).
Proof.
  intros Hs Hws. induction f as [|a r IH]; intros Hsingle Hend.
  - discriminate Hend.
  - destruct r as [|b r'].
    + cbn [endsInContent] in Hend. apply negb_true_iff in Hend.
      cbn [append scanRuns lead body]. rewrite Hs, Hend.
      apply Nat.leb_le in Hws. rewrite Hws. reflexivity.
    + assert (Hr : scanRuns (String b r' ++ s)
                   = (lead (String b r'), body (String b r') :: fields)).
      { apply IH; [exact (singleSpaced_tail _ _ Hsingle) | exact Hend]. }
      cbn [singleSpaced] in Hsingle.
      apply andb_true_iff in Hsingle as [Hab _].
      apply negb_true_iff in Hab.
      change (String a (String b r') ++ s) with (String a (String b r' ++ s)).
      cbn [scanRuns]. rewrite Hr. cbn [lead body].
      destruct (isSpace a) eqn:Ha.
      * cbn [andb] in Hab. rewrite Hab. reflexivity.
      * destruct (isSpace b); reflexivity.
Qed.

Lemma scanRuns_gap (gap s ws : string) (fields : list string) :
  scanRuns s = (ws, fields) ->
  forallb isSpace (list_ascii_of_string gap) = true ->
  scanRuns (gap ++ s) = (gap ++ ws, fields).
Proof.
  intros Hs. induction gap as [|a gap IH]; intros Hgap.
  - exact Hs.
  - cbn [list_ascii_of_string forallb] in Hgap.
    apply andb_true_iff in Hgap as [Ha Hrest].
    cbn [append scanRuns]. rewrite (IH Hrest), Ha. reflexivity.
Qed.

Lemma length_append (a b : string) :
  String.length (a ++ b) = (String.length a + String.length b)%nat.
Proof. induction a as [|x a IH]; simpl; [reflexivity | now rewrite IH]. Qed.

Lemma scanRuns_starts_with_content (s : string) :
  startsWithContent s = true -> fst (scanRuns s) = "".
Proof.
  destruct s as [|a r]; [discriminate|]. cbn [startsWithContent scanRuns].
  intros Ha. apply negb_true_iff in Ha. rewrite Ha.
  destruct (scanRuns r) as [ws fields].
  destruct (2 <=? String.length ws)%nat; [reflexivity|].
  destruct fields; reflexivity.
Qed.

Lemma scanRuns_fields_not_empty (s : string) : snd (scanRuns s) <> [].
Proof.
  induction s as [|a r IH]; [discriminate|].
  cbn [scanRuns]. destruct (scanRuns r) as [ws fields]. simpl in IH.
  destruct (isSpace a); [exact IH|].
  destruct (2 <=? String.length ws)%nat; [discriminate|].
  destruct fields; discriminate.
Qed.

(** A column value, a gap of two or more whitespace characters, then text
    that starts with content: the column value is the first column and the
    columns of the text follow. *)
Lemma splitRuns_boundary (f gap s : string) :
  columnValue f = true ->
  forallb isSpace (list_ascii_of_string gap) = true ->
  (2 <= String.length gap)%nat ->
  fst (scanRuns s) = "" ->
  splitRuns (f ++ gap ++ s) = f :: splitRuns s.
Proof.
  intros Hf Hgap Hlen Hs. unfold columnValue in Hf.
  apply andb_true_iff in Hf as [Hf Hsingle].
  apply andb_true_iff in Hf as [Hstart Hend].
  destruct (scanRuns s) as [ws fields] eqn:Escan. simpl in Hs. subst ws.
  pose proof (scanRuns_gap gap s "" fields Escan Hgap) as Egap.
  rewrite append_nil_r in Egap.
  pose proof (scanRuns_field f (gap ++ s) gap fields Egap Hlen Hsingle Hend)
    as Efield.
  unfold splitRuns. rewrite Efield, Escan, lead_body.
  pose proof (scanRuns_fields_not_empty s) as Hne. rewrite Escan in Hne.
  destruct fields as [|f0 fs]; [contradiction|]. reflexivity.
Qed.

(** A line without two adjacent whitespace characters is one column. *)
Lemma splitRuns_single_spaced (s : string) :
  singleSpaced s = true -> splitRuns s = [s].
Proof.
  intros Hsingle.
  assert (Hscan : scanRuns s = (lead s, [body s])).
  { induction s as [|a r IH]; [reflexivity|].
    specialize (IH (singleSpaced_tail _ _ Hsingle)).
    cbn [scanRuns]. rewrite IH. cbn [lead body].
    destruct (isSpace a) eqn:Ha.
    - destruct r as [|b r']; [reflexivity|].
      cbn [singleSpaced] in Hsingle.
      apply andb_true_iff in Hsingle as [Hab _].
      apply negb_true_iff in Hab. rewrite Ha in Hab. cbn [andb] in Hab.
      cbn [lead body]. rewrite Hab. reflexivity.
    - assert (Hshort : (2 <=? String.length (lead r))%nat = false).
      { destruct r as [|b r']; [reflexivity|]. cbn [lead].
        destruct (isSpace b); reflexivity. }
      rewrite Hshort, lead_body. reflexivity. }
  unfold splitRuns. rewrite Hscan, lead_body. reflexivity.
Qed.

(** Column values joined by gaps of two or more whitespace characters are
    recovered as the columns. *)
Lemma splitRuns_Join (gap : string) (values : list string) :
  forallb isSpace (list_ascii_of_string gap) = true ->
  (2 <= String.length gap)%nat ->
  values <> [] ->
  forallb columnValue values = true ->
  splitRuns (strings.Join values gap) = values.
Proof.
  intros Hgap Hlen. induction values as [|v rest IH]; [congruence|].
  intros _ Hvalues. cbn [forallb] in Hvalues.
  apply andb_true_iff in Hvalues as [Hv Hrest].
  destruct rest as [|v' rest'].
  - simpl. apply splitRuns_single_spaced.
    unfold columnValue in Hv. apply andb_true_iff in Hv. tauto.
  - change (strings.Join (v :: v' :: rest') gap)
      with (v ++ gap ++ strings.Join (v' :: rest') gap).
    rewrite splitRuns_boundary; try assumption.
    + f_equal. apply IH; [discriminate | exact Hrest].
    + apply scanRuns_starts_with_content.
      cbn [forallb] in Hrest. apply andb_true_iff in Hrest as [Hv' _].
      unfold columnValue in Hv'. apply andb_true_iff in Hv' as [Hv' _].
      apply andb_true_iff in Hv' as [Hstart _].
      destruct v' as [|a r]; [discriminate|].
      destruct rest'; exact Hstart.
Qed.

(** ** DockerRunning *)

(** The loop collects the names at the positions of the statuses that
    contain "Up", and never indexes out of range. *)
Lemma runningFrom_collects (names statuses : list string) :
  forall i images,
  exists more,
    runningFrom names statuses i images = Returns (images ++ more)%list
    /\ forall x, In x more <->
                 exists j status,
                   nth_error statuses j = Some status
                   /\ strings.Contains status "Up" = true
                   /\ nth_error names (i + j) = Some x.
Proof.
  induction statuses as [|status rest IH]; intros i images.
  - exists []. rewrite app_nil_r. split; [reflexivity|].
    intros x. split; [contradiction|].
    intros (j & s & Hj & _). destruct j; discriminate Hj.
  - cbn [runningFrom].
    destruct (strings.Contains status "Up") eqn:Hup;
      destruct (i <? length names)%nat eqn:Hlen; cbn [andb].
    + apply Nat.ltb_lt in Hlen.
      destruct (nth_error names i) as [name|] eqn:Hname;
        [|apply nth_error_None in Hname; lia].
      unfold index. rewrite Hname. cbn [bind].
      destruct (IH (S i) (images ++ [name])%list) as (more & Hrun & Hmore).
      exists (name :: more). split.
      * rewrite Hrun, <- app_assoc. reflexivity.
      * intros x. split.
        -- intros [<-|Hin].
           ++ exists 0%nat, status. rewrite Nat.add_0_r. auto.
           ++ apply Hmore in Hin as (j & s & Hj & Hs & Hn).
              exists (S j), s. rewrite Nat.add_succ_r. auto.
        -- intros (j & s & Hj & Hs & Hn). destruct j as [|j].
           ++ rewrite Nat.add_0_r in Hn. left. congruence.
           ++ right. apply Hmore. exists j, s.
              rewrite Nat.add_succ_r in Hn. auto.
    + apply Nat.ltb_ge in Hlen.
      destruct (IH (S i) images) as (more & Hrun & Hmore).
      exists more. split; [exact Hrun|].
      intros x. rewrite Hmore. split.
      * intros (j & s & Hj & Hs & Hn). exists (S j), s.
        rewrite Nat.add_succ_r. auto.
      * intros (j & s & Hj & Hs & Hn). destruct j as [|j].
        -- rewrite Nat.add_0_r in Hn.
           assert (nth_error names i = None) by (apply nth_error_None; lia).
           congruence.
        -- exists j, s. rewrite Nat.add_succ_r in Hn. auto.
    + destruct (IH (S i) images) as (more & Hrun & Hmore).
      exists more. split; [exact Hrun|].
      intros x. rewrite Hmore. split.
      * intros (j & s & Hj & Hs & Hn). exists (S j), s.
        rewrite Nat.add_succ_r. auto.
      * intros (j & s & Hj & Hs & Hn). destruct j as [|j].
        -- simpl in Hj. congruence.
        -- exists j, s. rewrite Nat.add_succ_r in Hn. auto.
    + destruct (IH (S i) images) as (more & Hrun & Hmore).
      exists more. split; [exact Hrun|].
      intros x. rewrite Hmore. split.
      * intros (j & s & Hj & Hs & Hn). exists (S j), s.
        rewrite Nat.add_succ_r. auto.
      * intros (j & s & Hj & Hs & Hn). destruct j as [|j].
        -- simpl in Hj. congruence.
        -- exists j, s. rewrite Nat.add_succ_r in Hn. auto.
Qed.

(** When every row has column 4 or lacks column 1, positions in the two
    columns are rows. *)
Lemma runningAt_rows (rows : list (list string)) (name : string) :
  forallb fullOrBlank rows = true ->
  runningAt (column rows 1 false) (column rows 4 false) name
  <-> runningRow rows name.
Proof.
  unfold runningAt, runningRow, column.
  induction rows as [|row rest IH]; intros Hrows.
  - split.
    + intros (i & s & Hi & _). destruct i; discriminate Hi.
    + intros (row & s & [] & _).
  - cbn [forallb] in Hrows. apply andb_true_iff in Hrows as [Hrow Hrest].
    specialize (IH Hrest). cbn [flat_map].
    unfold fullOrBlank in Hrow. apply orb_true_iff in Hrow as [Hblank|Hfull].
    + apply Nat.leb_le in Hblank.
      assert (H1 : nth_error row 1 = None) by (apply nth_error_None; lia).
      assert (H4 : nth_error row 4 = None) by (apply nth_error_None; lia).
      rewrite H1, H4. cbn [app]. rewrite IH. split.
      * intros (r & s & Hin & Hr). exists r, s. split; [right|]; assumption.
      * intros (r & s & [<-|Hin] & Hn & Hr); [congruence|].
        exists r, s. auto.
    + apply Nat.leb_le in Hfull.
      destruct (nth_error row 1) as [n1|] eqn:H1;
        [|apply nth_error_None in H1; lia].
      destruct (nth_error row 4) as [s4|] eqn:H4;
        [|apply nth_error_None in H4; lia].
      cbn [app]. split.
      * intros (i & s & Hi & Hs & Hn). destruct i as [|i].
        -- simpl in Hi, Hn. exists row, s4.
           split; [left; reflexivity|]. repeat split; congruence.
        -- simpl in Hi, Hn.
           destruct (proj1 IH (ex_intro _ i (ex_intro _ s
                       (conj Hi (conj Hs Hn))))) as (r & s' & Hin & Hr).
           exists r, s'. split; [right|]; assumption.
      * intros (r & s & [<-|Hin] & Hn & Hst & Hs).
        -- exists 0%nat, s. simpl. repeat split; congruence.
        -- destruct (proj2 IH (ex_intro _ r (ex_intro _ s
                       (conj Hin (conj Hn (conj Hst Hs))))))
             as (i & s' & Hi & Hs' & Hn').
           exists (S i), s'. simpl. auto.
Qed.

Lemma DockerRunning_run (sys : System) (out name : string)
  (rest : list string) :
  CombinedOutput sys ["docker"; "ps"; "-a"] = (out, None) ->
  let table := stringToSliceMultispace out in
  exists running,
    DockerRunning sys (name :: rest)
    = (if strIn name running then Returns (0, "")
       else Returns (genericError "Docker container not runnning" name
                       running))
    /\ forall x, In x running <->
                 runningAt (getColumnNoHeader 1 table)
                   (getColumnNoHeader 4 table) x.
Proof.
  intros Hcmd table.
  destruct (runningFrom_collects (getColumnNoHeader 1 table)
              (getColumnNoHeader 4 table) 0 [])
    as (running & Hrun & Hin).
  exists running. split.
  - unfold DockerRunning, getRunningContainers. cbn [index nth_error bind].
    rewrite Hcmd. fold table.
    destruct table as [|header rows] eqn:Etable.
    + simpl in Hrun. injection Hrun as <-. reflexivity.
    + cbn [length Nat.ltb Nat.leb]. rewrite Hrun. reflexivity.
  - exact Hin.
Qed.

Lemma DockerRunning_success_iff (sys : System) (out name : string)
  (rest : list string) :
  CombinedOutput sys ["docker"; "ps"; "-a"] = (out, None) ->
  DockerRunning sys (name :: rest) = Returns (0, "")
  <-> runningAt (getColumnNoHeader 1 (stringToSliceMultispace out))
        (getColumnNoHeader 4 (stringToSliceMultispace out)) name.
Proof.
  intros Hcmd.
  destruct (DockerRunning_run sys out name rest Hcmd)
    as (running & Hrun & Hin).
  rewrite Hrun, <- Hin, <- strIn_In.
  destruct (strIn name running); split; try reflexivity; try discriminate.
Qed.

(** C7: DockerRunning tokenizes the output of `docker ps -a` under the
    run-of-whitespace policy: a line without two adjacent whitespace
    characters is one column, and column values joined by gaps of two or
    more whitespace characters are recovered as the columns, single spaces
    inside them included.  On output as `docker ps -a` prints it, where
    every row after the header has at least the five columns up to the
    status or is blank, it returns (0, "") exactly when its first parameter
    is the column-1 name of some header-skipped row whose column-4 status
    contains "Up". *)
Theorem DockerRunning_finds_running_rows (sys : System)
  (out name : string) (rest : list string) :
  CombinedOutput sys ["docker"; "ps"; "-a"] = (out, None) ->
  forallb fullOrBlank (tl (stringToSliceMultispace out)) = true ->
  (DockerRunning sys (name :: rest) = Returns (0, "")
   <-> runningRow (tl (stringToSliceMultispace out)) name)
  /\ (forall line, singleSpaced line = true -> splitRuns line = [line])
  /\ (forall gap values,
         forallb isSpace (list_ascii_of_string gap) = true ->
         (2 <= String.length gap)%nat ->
         values <> [] ->
         forallb columnValue values = true ->
         splitRuns (strings.Join values gap) = values).
Proof.
  intros Hcmd Hrows. split; [|split].
  - rewrite (DockerRunning_success_iff sys out name rest Hcmd).
    apply (runningAt_rows (tl (stringToSliceMultispace out)) name Hrows).
  - exact splitRuns_single_spaced.
  - exact splitRuns_Join.
Qed.

Lemma DockerRunning_finds_running_rows_witness :
  DockerRunning containerSystem ["web"] = Returns (0, "")
  /\ DockerRunning containerSystem ["db"] <> Returns (0, "")
  /\ splitRuns "app-1   Up 3 hours   mycontainer app"
     = ["app-1"; "Up 3 hours"; "mycontainer app"].
Proof.
  destruct (DockerRunning_finds_running_rows containerSystem
              dockerPsOutput "web" [] eq_refl eq_refl)
    as (Hweb & _ & Hjoin).
  destruct (DockerRunning_finds_running_rows containerSystem
              dockerPsOutput "db" [] eq_refl eq_refl)
    as (Hdb & _ & _).
  split; [|split].
  - apply Hweb.
    exists ["3f4e5d6c7b8a"; "web"; "nginx -g"; "2 hours ago"; "Up 2 hours";
            "80/tcp"; "frontend"], "Up 2 hours".
    split; [left; reflexivity|]. repeat split.
  - intros E. apply Hdb in E.
    destruct E as (row & status & Hin & H1 & H4 & Hup).
    vm_compute in Hin. destruct Hin as [<-|[<-|[]]];
      try discriminate H1.
    injection H4 as <-. vm_compute in Hup. discriminate Hup.
  - apply (Hjoin "   " ["app-1"; "Up 3 hours"; "mycontainer app"]);
      [reflexivity | simpl; lia | discriminate | reflexivity].
Defined.

(** * Further properties of the checks *)

(** ** Connections *)

(** X1: with a timeout that is not positive, canConnect never returns
    false.  The error of the dial goes to a variable local to the switch
    case, so after a dial that succeeds canConnect returns true; after a
    dial that fails conn holds a nil pointer and the deferred conn.Close()
    panics.  TCP and UDP, which pass "0ns", therefore return (0, "") when
    the dial succeeds and panic when it fails: they never return their
    "Could not connect" result. *)
Theorem canConnect_without_timeout_never_fails (sys : System)
  (host : string) (timeout : Z) :
  timeout <= 0 ->
  (forall addr, ResolveTCPAddr sys host = Some addr ->
     canConnect sys host "TCP" timeout
     = if DialTCP sys addr then Returns true
       else Panics NilPointerDereference)
  /\ (forall addr, ResolveUDPAddr sys host = Some addr ->
        canConnect sys host "UDP" timeout
        = if DialUDP sys addr then Returns true
          else Panics NilPointerDereference)
  /\ (forall addr rest,
         ParseDuration sys "0ns" = Some timeout ->
         ResolveTCPAddr sys host = Some addr ->
         TCP sys (host :: rest)
         = if DialTCP sys addr then Returns (0, "")
           else Panics NilPointerDereference)
  /\ (forall addr rest,
         ParseDuration sys "0ns" = Some timeout ->
         ResolveUDPAddr sys host = Some addr ->
         UDP sys (host :: rest)
         = if DialUDP sys addr then Returns (0, "")
           else Panics NilPointerDereference).
Proof.
  intros Htimeout.
  assert (Hpos : (0 <? timeout) = false) by (apply Z.ltb_ge; exact Htimeout).
  assert (Hnon : (timeout <=? 0) = true) by (apply Z.leb_le; exact Htimeout).
  assert (Htcp : forall addr, ResolveTCPAddr sys host = Some addr ->
     canConnect sys host "TCP" timeout
     = if DialTCP sys addr then Returns true
       else Panics NilPointerDereference).
  { intros addr Haddr. unfold canConnect. cbn [String.eqb Ascii.eqb Bool.eqb].
    rewrite Haddr. cbn [bind]. rewrite Hpos, Hnon.
    destruct (DialTCP sys addr); reflexivity. }
  assert (Hudp : forall addr, ResolveUDPAddr sys host = Some addr ->
     canConnect sys host "UDP" timeout
     = if DialUDP sys addr then Returns true
       else Panics NilPointerDereference).
  { intros addr Haddr. unfold canConnect. cbn [String.eqb Ascii.eqb Bool.eqb].
    rewrite Haddr. cbn [bind]. rewrite Hpos, Hnon.
    destruct (DialUDP sys addr); reflexivity. }
  repeat apply conj; try assumption.
  - intros addr rest Hdur Haddr. unfold TCP, getConnectionWorker.
    cbn [index nth_error bind]. rewrite Hdur, (Htcp addr Haddr).
    destruct (DialTCP sys addr); reflexivity.
  - intros addr rest Hdur Haddr. unfold UDP, getConnectionWorker.
    cbn [index nth_error bind]. rewrite Hdur, (Hudp addr Haddr).
    destruct (DialUDP sys addr); reflexivity.
Qed.

Lemma canConnect_without_timeout_never_fails_witness :
  DialTCP networkSystem "127.0.0.1:80" = false
  /\ TCP networkSystem ["localhost:80"] = Panics NilPointerDereference.
Proof.
  split; [reflexivity|].
  destruct (canConnect_without_timeout_never_fails networkSystem
              "localhost:80" 0 (Z.le_refl 0)) as (_ & _ & Htcp & _).
  exact (Htcp "127.0.0.1:80" [] eq_refl eq_refl).
Defined.

(** X2: with a positive timeout, canConnect is the outcome of
    net.DialTimeout on the resolved address, over "tcp" or "udp"; tcpTimeout
    and udpTimeout return (0, "") when that dial succeeds and (1, "Could not
    connect over <protocol> to host: <host>") when it fails. *)
Theorem canConnect_with_timeout_dials (sys : System) (host : string)
  (timeout : Z) :
  0 < timeout ->
  (forall addr, ResolveTCPAddr sys host = Some addr ->
     canConnect sys host "TCP" timeout
     = Returns (DialTimeout sys "tcp" addr timeout))
  /\ (forall addr, ResolveUDPAddr sys host = Some addr ->
        canConnect sys host "UDP" timeout
        = Returns (DialTimeout sys "udp" addr timeout))
  /\ (forall addr t rest,
         ParseDuration sys t = Some timeout ->
         ResolveTCPAddr sys host = Some addr ->
         tcpTimeout sys (host :: t :: rest)
         = Returns (if DialTimeout sys "tcp" addr timeout then (0, "")
                    else (1, "Could not connect over TCP to host: " ++ host)))
  /\ (forall addr t rest,
         ParseDuration sys t = Some timeout ->
         ResolveUDPAddr sys host = Some addr ->
         udpTimeout sys (host :: t :: rest)
         = Returns (if DialTimeout sys "udp" addr timeout then (0, "")
                    else (1, "Could not connect over UDP to host: " ++ host))).
Proof.
  intros Htimeout.
  assert (Hpos : (0 <? timeout) = true) by (apply Z.ltb_lt; exact Htimeout).
  assert (Htcp : forall addr, ResolveTCPAddr sys host = Some addr ->
     canConnect sys host "TCP" timeout
     = Returns (DialTimeout sys "tcp" addr timeout)).
  { intros addr Haddr. unfold canConnect. cbn [String.eqb Ascii.eqb Bool.eqb].
    rewrite Haddr. cbn [bind]. rewrite Hpos.
    destruct (DialTimeout sys "tcp" addr timeout); reflexivity. }
  assert (Hudp : forall addr, ResolveUDPAddr sys host = Some addr ->
     canConnect sys host "UDP" timeout
     = Returns (DialTimeout sys "udp" addr timeout)).
  { intros addr Haddr. unfold canConnect. cbn [String.eqb Ascii.eqb Bool.eqb].
    rewrite Haddr. cbn [bind]. rewrite Hpos.
    destruct (DialTimeout sys "udp" addr timeout); reflexivity. }
  repeat apply conj; try assumption.
  - intros addr t rest Hdur Haddr. unfold tcpTimeout, getConnectionWorker.
    cbn [index nth_error bind]. rewrite Hdur, (Htcp addr Haddr). cbn [bind].
    destruct (DialTimeout sys "tcp" addr timeout); reflexivity.
  - intros addr t rest Hdur Haddr. unfold udpTimeout, getConnectionWorker.
    cbn [index nth_error bind]. rewrite Hdur, (Hudp addr Haddr). cbn [bind].
    destruct (DialTimeout sys "udp" addr timeout); reflexivity.
Qed.

Lemma canConnect_with_timeout_dials_witness :
  tcpTimeout networkSystem ["localhost:80"; "1s"]
  = Returns (1, "Could not connect over TCP to host: localhost:80").
Proof.
  destruct (canConnect_with_timeout_dials networkSystem "localhost:80"
              1000000000 eq_refl) as (_ & _ & Htcp & _).
  exact (Htcp "127.0.0.1:80" "1s" [] eq_refl eq_refl).
Defined.

(** X3: an address that does not resolve ends canConnect in log.Fatal
    ("Could not parse <protocol> address: <host>"), whatever the timeout;
    TCP and UDP then give no check result. *)
Theorem unresolved_address_is_fatal (sys : System) (host : string) :
  (ResolveTCPAddr sys host = None ->
   (forall timeout,
       canConnect sys host "TCP" timeout
       = Fatal ("Could not parse TCP address: " ++ host))
   /\ forall rest d, ParseDuration sys "0ns" = Some d ->
        TCP sys (host :: rest)
        = Fatal ("Could not parse TCP address: " ++ host))
  /\ (ResolveUDPAddr sys host = None ->
      (forall timeout,
          canConnect sys host "UDP" timeout
          = Fatal ("Could not parse UDP address: " ++ host))
      /\ forall rest d, ParseDuration sys "0ns" = Some d ->
           UDP sys (host :: rest)
           = Fatal ("Could not parse UDP address: " ++ host)).
Proof.
  split; intros Haddr.
  - assert (H : forall timeout, canConnect sys host "TCP" timeout
                  = Fatal ("Could not parse TCP address: " ++ host)).
    { intros timeout. unfold canConnect.
      cbn [String.eqb Ascii.eqb Bool.eqb]. rewrite Haddr. reflexivity. }
    split; [exact H|]. intros rest d Hdur. unfold TCP, getConnectionWorker.
    cbn [index nth_error bind]. rewrite Hdur, H. reflexivity.
  - assert (H : forall timeout, canConnect sys host "UDP" timeout
                  = Fatal ("Could not parse UDP address: " ++ host)).
    { intros timeout. unfold canConnect.
      cbn [String.eqb Ascii.eqb Bool.eqb]. rewrite Haddr. reflexivity. }
    split; [exact H|]. intros rest d Hdur. unfold UDP, getConnectionWorker.
    cbn [index nth_error bind]. rewrite Hdur, H. reflexivity.
Qed.

Lemma unresolved_address_is_fatal_witness :
  TCP networkSystem ["nowhere"] = Fatal "Could not parse TCP address: nowhere".
Proof.
  exact (proj2 (proj1 (unresolved_address_is_fatal networkSystem "nowhere")
                  eq_refl) [] 0 eq_refl).
Defined.

(** ** The routing table *)

Lemma firstNonZero_find (col : list string) :
  firstNonZero col
  = match find (fun ip => negb (String.eqb ip "0.0.0.0")) col with
    | Some ip => ip
    | None => "0.0.0.0"
    end.
Proof.
  induction col as [|ip rest IH]; simpl; [reflexivity|].
  destruct (negb (String.eqb ip "0.0.0.0")); [reflexivity | exact IH].
Qed.

Lemma Gateway_run (sys : System) (col : list string) (address : string)
  (rest : list string) :
  routingTableColumn sys 1 = Returns col ->
  Gateway sys (address :: rest)
  = if String.eqb address (firstNonZero col) then Returns (0, "")
    else Returns (genericError "Gateway does not have address" address
                    [firstNonZero col]).
Proof.
  intros Hcol. unfold Gateway. cbn [index nth_error bind]. rewrite Hcol.
  reflexivity.
Qed.

Lemma GatewayInterface_run (sys : System) (col : list string) (name : string)
  (rest : list string) :
  routingTableColumn sys 1 = Returns col ->
  GatewayInterface sys (name :: rest)
  = if String.eqb name (firstGateway col) then Returns (0, "")
    else Returns (genericError "Default gateway does not operate on interface"
                    name [firstGateway col]).
Proof.
  intros Hcol. unfold GatewayInterface. cbn [index nth_error bind].
  rewrite (getGatewayInterface_column sys col Hcol). reflexivity.
Qed.

Lemma check_success_if (b : bool) (r : CheckResult) :
  fst r = 1 ->
  (if b then Returns (0, "") else Returns r) = Returns (0, "") <-> b = true.
Proof.
  intros Hr. destruct b; split; intros H; try reflexivity; try discriminate.
  injection H as ->. discriminate.
Qed.

Lemma firstNonZero_at (zeros after : list string) (ip : string) :
  Forall (fun z => z = "0.0.0.0") zeros ->
  ip <> "0.0.0.0" ->
  firstNonZero (zeros ++ ip :: after)%list = ip
  /\ firstGateway (zeros ++ ip :: after)%list = ip.
Proof.
  intros Hzeros Hip. apply String.eqb_neq in Hip. unfold firstGateway.
  induction Hzeros as [|z zs Hz _ IH]; simpl.
  - rewrite Hip. split; reflexivity.
  - subst z. simpl. exact IH.
Qed.

Lemma firstNonZero_none (col : list string) :
  Forall (fun z => z = "0.0.0.0") col ->
  firstNonZero col = "0.0.0.0" /\ firstGateway col = "".
Proof.
  unfold firstGateway. induction 1 as [|z zs Hz _ IH]; simpl.
  - split; reflexivity.
  - subst z. simpl. exact IH.
Qed.

(** X4: Gateway and GatewayInterface accept the same single value whenever
    the gateway column of `route -n` has an entry other than "0.0.0.0": the
    first such entry, whatever follows it.  When every entry is "0.0.0.0"
    (or there is none), Gateway accepts exactly "0.0.0.0" and
    GatewayInterface exactly the empty string. *)
Theorem Gateway_and_GatewayInterface_agree (sys : System)
  (col : list string) :
  routingTableColumn sys 1 = Returns col ->
  (forall zeros ip after,
      col = (zeros ++ ip :: after)%list ->
      Forall (fun z => z = "0.0.0.0") zeros ->
      ip <> "0.0.0.0" ->
      forall x rest,
        (Gateway sys (x :: rest) = Returns (0, "") <-> x = ip)
        /\ (GatewayInterface sys (x :: rest) = Returns (0, "") <-> x = ip))
  /\ (Forall (fun z => z = "0.0.0.0") col ->
      forall x rest,
        (Gateway sys (x :: rest) = Returns (0, "") <-> x = "0.0.0.0")
        /\ (GatewayInterface sys (x :: rest) = Returns (0, "") <-> x = "")).
Proof.
  intros Hcol.
  assert (Hgw : forall x rest,
             Gateway sys (x :: rest) = Returns (0, "")
             <-> x = firstNonZero col).
  { intros x rest. rewrite (Gateway_run sys col x rest Hcol).
    rewrite check_success_if by reflexivity. apply String.eqb_eq. }
  assert (Hif : forall x rest,
             GatewayInterface sys (x :: rest) = Returns (0, "")
             <-> x = firstGateway col).
  { intros x rest. rewrite (GatewayInterface_run sys col x rest Hcol).
    rewrite check_success_if by reflexivity. apply String.eqb_eq. }
  split.
  - intros zeros ip after Hshape Hzeros Hip x rest.
    destruct (firstNonZero_at zeros after ip Hzeros Hip) as [Hfirst Hgate].
    rewrite <- Hshape in Hfirst, Hgate.
    rewrite Hgw, Hif, Hfirst, Hgate. tauto.
  - intros Hzeros x rest.
    destruct (firstNonZero_none col Hzeros) as [Hfirst Hgate].
    rewrite Hgw, Hif, Hfirst, Hgate. tauto.
Qed.

Lemma Gateway_and_GatewayInterface_agree_witness :
  Gateway twoGatewaySystem ["192.168.1.1"] = Returns (0, "")
  /\ GatewayInterface twoGatewaySystem ["192.168.1.1"] = Returns (0, "")
  /\ Gateway twoGatewaySystem ["10.0.0.1"] <> Returns (0, "").
Proof.
  pose proof (proj1 (Gateway_and_GatewayInterface_agree twoGatewaySystem
                       ["0.0.0.0"; "192.168.1.1"; "10.0.0.1"] eq_refl)
                ["0.0.0.0"] "192.168.1.1" ["10.0.0.1"] eq_refl) as H.
  assert (Hzeros : Forall (fun z => z = "0.0.0.0") ["0.0.0.0"])
    by (repeat constructor).
  assert (Hip : "192.168.1.1" <> "0.0.0.0") by discriminate.
  destruct (H Hzeros Hip "192.168.1.1" []) as [Hgw Hif].
  destruct (H Hzeros Hip "10.0.0.1" []) as [Hother _].
  split; [apply Hgw; reflexivity|]. split; [apply Hif; reflexivity|].
  intros E. apply Hother in E. discriminate E.
Defined.

(** X5: routingTableColumn slices the column from index 1 without looking at
    its length.  When `route -n` yields no entry at all for a column (as for
    empty output), the slice panics, and so do routingTableMatch and the
    checks built on it, Gateway and GatewayInterface. *)
Theorem routingTableColumn_empty_panics (sys : System) (col : nat) :
  commandColumnNoHeader sys col ["route"; "-n"] = Returns [] ->
  routingTableColumn sys col = Panics (SliceBoundsOutOfRange 1 0)
  /\ (forall str,
         routingTableMatch sys col str = Panics (SliceBoundsOutOfRange 1 0))
  /\ (col = 1%nat ->
      forall x rest,
        Gateway sys (x :: rest) = Panics (SliceBoundsOutOfRange 1 0)
        /\ GatewayInterface sys (x :: rest)
           = Panics (SliceBoundsOutOfRange 1 0)
        /\ RoutingTableGateway sys (x :: rest)
           = Panics (SliceBoundsOutOfRange 1 0)).
Proof.
  intros Hcol.
  assert (Hpanic : routingTableColumn sys col
                   = Panics (SliceBoundsOutOfRange 1 0)).
  { unfold routingTableColumn. rewrite Hcol. reflexivity. }
  split; [exact Hpanic|]. split.
  - intros str. unfold routingTableMatch. rewrite Hpanic. reflexivity.
  - intros -> x rest. repeat apply conj.
    + unfold Gateway. cbn [index nth_error bind]. rewrite Hpanic. reflexivity.
    + unfold GatewayInterface, getGatewayInterface.
      cbn [index nth_error bind]. rewrite Hpanic. reflexivity.
    + unfold RoutingTableGateway, routingTableMatch.
      cbn [index nth_error bind]. rewrite Hpanic. reflexivity.
Qed.

Lemma routingTableColumn_empty_panics_witness :
  Gateway networkSystem ["192.168.1.1"] = Panics (SliceBoundsOutOfRange 1 0).
Proof.
  exact (proj1 (proj2 (proj2 (routingTableColumn_empty_panics networkSystem 1
                                eq_refl)) eq_refl "192.168.1.1" [])).
Defined.

Lemma firstNonZero_In (col : list string) :
  firstNonZero col <> "0.0.0.0" -> In (firstNonZero col) col.
Proof.
  induction col as [|ip rest IH]; simpl; [congruence|].
  destruct (negb (String.eqb ip "0.0.0.0")); [left; reflexivity|].
  intros H. right. exact (IH H).
Qed.

(** X6: whatever address other than "0.0.0.0" Gateway accepts,
    RoutingTableGateway accepts too: the default gateway is one of the
    gateways of the routing table. *)
Theorem Gateway_implies_RoutingTableGateway (sys : System) (x : string)
  (rest rest' : list string) :
  x <> "0.0.0.0" ->
  Gateway sys (x :: rest) = Returns (0, "") ->
  RoutingTableGateway sys (x :: rest') = Returns (0, "").
Proof.
  intros Hx Hgw.
  destruct (routingTableColumn sys 1) as [col| |] eqn:Hcol;
    try (unfold Gateway in Hgw; cbn [index nth_error bind] in Hgw;
         rewrite Hcol in Hgw; discriminate Hgw).
  rewrite (Gateway_run sys col x rest Hcol) in Hgw.
  apply check_success_if in Hgw; [|reflexivity].
  apply String.eqb_eq in Hgw.
  unfold RoutingTableGateway, routingTableMatch. cbn [index nth_error bind].
  rewrite Hcol. cbn [bind].
  assert (Hin : strIn x col = true).
  { apply strIn_In. rewrite Hgw. apply firstNonZero_In. congruence. }
  rewrite Hin. reflexivity.
Qed.

Lemma Gateway_implies_RoutingTableGateway_witness :
  RoutingTableGateway routedSystem ["192.168.1.1"] = Returns (0, "").
Proof.
  apply (Gateway_implies_RoutingTableGateway routedSystem "192.168.1.1" [] []).
  - discriminate.
  - reflexivity.
Defined.

(** X7: the loop of getGatewayInterface guards its index with
    len(names) < i.  At the first gateway other than "0.0.0.0", at index i,
    it is fatal when names has fewer than i entries, returns names[i] when
    it has more than i, and panics with an index out of range when it has
    exactly i: the guard misses that length. *)
Theorem gatewayInterfaceFrom_guard (zeros rest names : list string)
  (ip : string) :
  Forall (fun z => z = "0.0.0.0") zeros ->
  ip <> "0.0.0.0" ->
  let i := length zeros in
  ((length names < i)%nat ->
   gatewayInterfaceFrom (zeros ++ ip :: rest)%list names 0 = Fatal "")
  /\ (length names = i ->
      gatewayInterfaceFrom (zeros ++ ip :: rest)%list names 0
      = Panics (IndexOutOfRange i i))
  /\ (forall name, nth_error names i = Some name ->
      gatewayInterfaceFrom (zeros ++ ip :: rest)%list names 0 = Returns name).
Proof.
  intros Hzeros Hip i.
  assert (Hloop : forall k,
             gatewayInterfaceFrom (zeros ++ ip :: rest)%list names k
             = if (length names <? k + length zeros)%nat then Fatal ""
               else index names (k + length zeros)).
  { induction Hzeros as [|z zs Hz _ IH]; intros k.
    - simpl. apply String.eqb_neq in Hip. rewrite Hip. simpl.
      rewrite Nat.add_0_r. reflexivity.
    - subst z. cbn [app gatewayInterfaceFrom String.eqb Ascii.eqb Bool.eqb negb].
      rewrite IH. cbn [length]. rewrite Nat.add_succ_r. reflexivity. }
  specialize (Hloop 0%nat). cbn [Nat.add] in Hloop. fold i in Hloop.
  rewrite Hloop. repeat apply conj.
  - intros Hlt. apply Nat.ltb_lt in Hlt. rewrite Hlt. reflexivity.
  - intros Heq. rewrite Heq, Nat.ltb_irrefl. unfold index.
    assert (Hnone : nth_error names i = None)
      by (apply nth_error_None; lia).
    rewrite Hnone, Heq. reflexivity.
  - intros name Hname.
    assert (Hlt : (i < length names)%nat)
      by (apply nth_error_Some; congruence).
    assert (Hge : (length names <? i)%nat = false)
      by (apply Nat.ltb_ge; lia).
    rewrite Hge. unfold index. rewrite Hname. reflexivity.
Qed.

Lemma gatewayInterfaceFrom_guard_witness :
  gatewayInterfaceFrom ["0.0.0.0"; "10.0.0.1"] ["eth0"] 0
  = Panics (IndexOutOfRange 1 1).
Proof.
  refine (proj1 (proj2 (gatewayInterfaceFrom_guard ["0.0.0.0"] [] ["eth0"]
                          "10.0.0.1" _ _)) eq_refl).
  - repeat constructor.
  - discriminate.
Defined.

(** ** Groups *)

Lemma not_unparsable_idParses (table : list (list string)) :
  existsb unparsableId table = false -> forallb idParses table = true.
Proof.
  induction table as [|line rest IH]; [reflexivity|].
  cbn [existsb forallb]. intros H. apply orb_false_iff in H as [Hline Hrest].
  rewrite (IH Hrest), andb_true_r. clear IH Hrest.
  unfold idParses.
  destruct line as [|f0 [|f1 [|f2 [|f3 more]]]]; try reflexivity.
  cbn [length Nat.ltb Nat.leb nth orb]. cbn [unparsableId] in Hline.
  destruct (strconv.ParseInt f2 10); [reflexivity | discriminate].
Qed.

Lemma expectedGroups_names (table : list (list string)) :
  forallb idParses table = true ->
  map Name (expectedGroups table) = flat_map lineName table.
Proof.
  induction table as [|line rest IH]; [reflexivity|].
  cbn [forallb]. intros H. apply andb_true_iff in H as [Hline Hrest].
  cbn [expectedGroups flat_map]. rewrite map_app. f_equal; [|exact (IH Hrest)].
  unfold idParses, expectedGroup in *.
  destruct line as [|f0 [|f1 [|f2 [|f3 more]]]]; try reflexivity.
  cbn [length Nat.ltb Nat.leb nth orb lineName] in *.
  destruct (strconv.ParseInt f2 10); [reflexivity | discriminate].
Qed.

(** X8: getGroups never panics, and it is fatal in two cases only: the file
    cannot be read, or some line with all four fields has an id that does
    not parse.  Otherwise it returns one group per line with at least four
    fields, in the order of the file, named by the first field. *)
Theorem getGroups_outcome (sys : System) :
  match ReadFile sys "/etc/group" with
  | None => isFatal (getGroups sys) = true
  | Some data =>
      let table := separateString (Exact newline) (Exact ":") data in
      if existsb unparsableId table then isFatal (getGroups sys) = true
      else exists groups,
             getGroups sys = Returns groups
             /\ map Name groups = flat_map lineName table
  end.
Proof.
  destruct (ReadFile sys "/etc/group") as [data|] eqn:Hfile.
  - cbv zeta. rewrite (getGroups_of_file sys data Hfile).
    destruct (existsb unparsableId
                (separateString (Exact newline) (Exact ":") data)) eqn:Hbad.
    + apply getGroupsFrom_unparsable. exact Hbad.
    + apply not_unparsable_idParses in Hbad.
      exists (expectedGroups (separateString (Exact newline) (Exact ":") data)).
      split.
      * apply (getGroupsFrom_expected _ Hbad []).
      * apply expectedGroups_names. exact Hbad.
  - unfold getGroups, fileToString. rewrite Hfile. reflexivity.
Qed.








Lemma groupNamed_In (groups : list Group) (name : string) :
  groupNamed groups name = true <-> In name (map Name groups).
Proof.
  induction groups as [|g rest IH]; simpl; [split; [discriminate | tauto]|].
  destruct (String.eqb_spec (Name g) name) as [E|NE].
  - split; auto.
  - rewrite IH. split; [auto | intros [E|H]; [contradiction | exact H]].
Qed.

Lemma GroupExists_run (sys : System) (groups : list Group) (name : string)
  (rest : list string) :
  getGroups sys = Returns groups ->
  GroupExists sys (name :: rest)
  = if groupNamed groups name then Returns (0, "")
    else Returns (genericError "Group not found" name (map Name groups)).
Proof.
  intros Hgroups. unfold GroupExists, doesGroupExist, groupNotFound.
  cbn [index nth_error bind]. rewrite Hgroups. reflexivity.
Qed.

(** X10: GroupExists returns (0, "") exactly when some group that
    getGroups returns has the given name; otherwise it returns the "Group
    not found" diagnostic with the names of all the groups, in file order. *)
Theorem GroupExists_decides_membership (sys : System) (groups : list Group)
  (name : string) (rest : list string) :
  getGroups sys = Returns groups ->
  (GroupExists sys (name :: rest) = Returns (0, "")
   <-> In name (map Name groups))
  /\ (~ In name (map Name groups) ->
      GroupExists sys (name :: rest)
      = Returns (genericError "Group not found" name (map Name groups))).
Proof.
  intros Hgroups. rewrite (GroupExists_run sys groups name rest Hgroups).
  split.
  - rewrite check_success_if by reflexivity. apply groupNamed_In.
  - intros Hnot. destruct (groupNamed groups name) eqn:Hnamed;
      [apply groupNamed_In in Hnamed; contradiction | reflexivity].
Qed.

Lemma GroupExists_decides_membership_witness :
  GroupExists (withFile "/etc/group" (lines ["root:x:0:"; "sudo:x:27:alice"])
                 bareSystem) ["wheel"]
  = Returns (genericError "Group not found" "wheel" ["root"; "sudo"]).
Proof.
  apply (proj2 (GroupExists_decides_membership
                  (withFile "/etc/group"
                     (lines ["root:x:0:"; "sudo:x:27:alice"]) bareSystem)
                  [mkGroup "root" 0 [""]; mkGroup "sudo" 27 ["alice"]]
                  "wheel" [] eq_refl)).
  intros [E|[E|[]]]; discriminate E.
Defined.

Lemma GroupIdFrom_first (sys : System) (before after : list Group)
  (g : Group) (name : string) (id : Z) :
  groupNamed before name = false ->
  Name g = name ->
  GroupIdFrom sys (before ++ g :: after)%list name id
  = if Id g =? id then Returns (0, "")
    else Returns (genericError "Group does not have expected ID"
                    (fmt.Sprint id) [fmt.Sprint (Id g)]).
Proof.
  intros Hbefore Hname. induction before as [|b before IH]; simpl.
  - rewrite Hname, String.eqb_refl. reflexivity.
  - simpl in Hbefore. destruct (String.eqb (Name b) name); [discriminate|].
    exact (IH Hbefore).
Qed.

(** X11: GroupId looks at the first group with the given name only: it
    returns (0, "") when that group has the given id and otherwise the
    diagnostic with the wanted id and the id found, whatever groups of the
    same name come later in the file. *)
Theorem GroupId_first_group_decides (sys : System)
  (before after : list Group) (g : Group) (name idParameter : string)
  (id : Z) (rest : list string) :
  getGroups sys = Returns (before ++ g :: after)%list ->
  groupNamed before name = false ->
  Name g = name ->
  strconv.ParseInt idParameter 10 = Some id ->
  GroupId sys (name :: idParameter :: rest)
  = if Id g =? id then Returns (0, "")
    else Returns (genericError "Group does not have expected ID"
                    (fmt.Sprint id) [fmt.Sprint (Id g)]).
Proof.
  intros Hgroups Hbefore Hname Hid. unfold GroupId, parseMyInt.
  cbn [index nth_error bind]. rewrite Hid. cbn [bind]. rewrite Hgroups.
  cbn [bind]. apply GroupIdFrom_first; assumption.
Qed.

Lemma GroupId_first_group_decides_witness :
  GroupId (withFile "/etc/group" (lines ["sudo:x:27:alice"; "sudo:x:99:bob"])
             bareSystem) ["sudo"; "99"]
  = Returns (genericError "Group does not have expected ID" "99" ["27"]).
Proof.
  exact (GroupId_first_group_decides
           (withFile "/etc/group" (lines ["sudo:x:27:alice"; "sudo:x:99:bob"])
              bareSystem)
           [] [mkGroup "sudo" 99 ["bob"]] (mkGroup "sudo" 27 ["alice"])
           "sudo" "99" 99 [] eq_refl eq_refl eq_refl eq_refl).
Defined.

Lemma GroupIdFrom_success_named (sys : System) (groups all : list Group)
  (name : string) (id : Z) :
  getGroups sys = Returns all ->
  GroupIdFrom sys groups name id = Returns (0, "") ->
  groupNamed groups name = true.
Proof.
  intros Hall. induction groups as [|g rest IH]; simpl.
  - unfold groupNotFound. rewrite Hall. cbn [bind]. unfold genericError.
    discriminate.
  - destruct (String.eqb (Name g) name); [reflexivity | exact IH].
Qed.

(** X12: a group that passes GroupId passes GroupExists: whenever GroupId
    returns (0, "") for a name, GroupExists returns (0, "") for it. *)
Theorem GroupId_implies_GroupExists (sys : System) (name idParameter : string)
  (rest rest' : list string) :
  GroupId sys (name :: idParameter :: rest) = Returns (0, "") ->
  GroupExists sys (name :: rest') = Returns (0, "").
Proof.
  unfold GroupId. cbn [index nth_error bind].
  destruct (parseMyInt idParameter) as [id| |]; cbn [bind];
    try discriminate.
  destruct (getGroups sys) as [groups| |] eqn:Hgroups; cbn [bind];
    try discriminate.
  intros Hid.
  apply (GroupIdFrom_success_named sys groups groups name id Hgroups) in Hid.
  rewrite (GroupExists_run sys groups name rest' Hgroups), Hid.
  reflexivity.
Qed.

Lemma GroupId_implies_GroupExists_witness :
  GroupExists (withFile "/etc/group" "sudo:x:27:alice" bareSystem) ["sudo"]
  = Returns (0, "").
Proof.
  exact (GroupId_implies_GroupExists
           (withFile "/etc/group" "sudo:x:27:alice" bareSystem)
           "sudo" "27" [] [] eq_refl).
Defined.

(** ** Users *)

Lemma genericUserField_run (sys : System) (u fieldName v : string) :
  genericUserField sys u fieldName v
  = match lookupUser sys u with
    | None => Returns (1, "User does not exist: " ++ u)
    | Some usr =>
        match user.FieldByName usr fieldName with
        | None =>
            Fatal ("Failure during reflection: Field is not a string:"
                   ++ nl ++ tab ++ "Field name: " ++ fieldName
                   ++ nl ++ tab ++ "Field Kind: " ++ "invalid"
                   ++ nl ++ tab ++ "User: " ++ user.Username usr)
        | Some actual =>
            if String.eqb actual v then Returns (0, "")
            else Returns (1, "User does not have expected " ++ fieldName
                             ++ ": " ++ nl ++ "User: " ++ u
                             ++ nl ++ "Given: " ++ v)
        end
    end.
Proof.
  unfold genericUserField, userHasField.
  destruct (lookupUser sys u) as [usr|]; [|reflexivity].
  destruct (user.FieldByName usr fieldName) as [actual|]; [|reflexivity].
  cbn [bind]. destruct (String.eqb actual v); reflexivity.
Qed.

Lemma field_success_iff (sys : System) (u fieldName v : string)
  (project : user.User -> string) :
  (forall usr, user.FieldByName usr fieldName = Some (project usr)) ->
  genericUserField sys u fieldName v = Returns (0, "")
  <-> exists usr, lookupUser sys u = Some usr /\ project usr = v.
Proof.
  intros Hfield. rewrite genericUserField_run.
  destruct (lookupUser sys u) as [usr|].
  - rewrite Hfield. destruct (String.eqb_spec (project usr) v) as [E|NE].
    + split; [intros _; exists usr; auto | reflexivity].
    + split; [discriminate|]. intros (usr' & Husr & E).
      injection Husr as <-. contradiction.
  - split; [discriminate | intros (usr & Husr & _); discriminate].
Qed.

(** X13: each of the five UserHas checks returns (0, "") exactly when the
    user is found and the field it is named after (Uid, Gid, Username, Name,
    HomeDir) equals the second parameter: the five field names given to the
    reflective lookup are fields of the user record. *)
Theorem UserHas_checks_compare_their_field (sys : System) (u v : string)
  (rest : list string) :
  (UserHasUID sys (u :: v :: rest) = Returns (0, "")
   <-> exists usr, lookupUser sys u = Some usr /\ user.Uid usr = v)
  /\ (UserHasGID sys (u :: v :: rest) = Returns (0, "")
      <-> exists usr, lookupUser sys u = Some usr /\ user.Gid usr = v)
  /\ (UserHasUsername sys (u :: v :: rest) = Returns (0, "")
      <-> exists usr, lookupUser sys u = Some usr /\ user.Username usr = v)
  /\ (UserHasName sys (u :: v :: rest) = Returns (0, "")
      <-> exists usr, lookupUser sys u = Some usr /\ user.Name usr = v)
  /\ (UserHasHomeDir sys (u :: v :: rest) = Returns (0, "")
      <-> exists usr, lookupUser sys u = Some usr /\ user.HomeDir usr = v).
Proof.
  split; [|split; [|split; [|split]]].
  - apply (field_success_iff sys u "Uid" v user.Uid). reflexivity.
  - apply (field_success_iff sys u "Gid" v user.Gid). reflexivity.
  - apply (field_success_iff sys u "Username" v user.Username). reflexivity.
  - apply (field_success_iff sys u "Name" v user.Name). reflexivity.
  - apply (field_success_iff sys u "HomeDir" v user.HomeDir). reflexivity.
Qed.

(** X14: for a user that neither lookup finds, the five UserHas checks
    return what UserExists returns: (1, "User does not exist: <user>").  For
    a user that is found, UserExists returns (0, ""). *)
Theorem UserHas_checks_report_missing_user (sys : System) (u : string) :
  (lookupUser sys u = None ->
   forall v rest,
     UserExists sys (u :: rest) = Returns (1, "User does not exist: " ++ u)
     /\ UserHasUID sys (u :: v :: rest) = UserExists sys (u :: rest)
     /\ UserHasGID sys (u :: v :: rest) = UserExists sys (u :: rest)
     /\ UserHasUsername sys (u :: v :: rest) = UserExists sys (u :: rest)
     /\ UserHasName sys (u :: v :: rest) = UserExists sys (u :: rest)
     /\ UserHasHomeDir sys (u :: v :: rest) = UserExists sys (u :: rest))
  /\ (forall usr, lookupUser sys u = Some usr ->
      forall rest, UserExists sys (u :: rest) = Returns (0, "")).
Proof.
  split.
  - intros Hnone v rest.
    assert (Hexists : UserExists sys (u :: rest)
                      = Returns (1, "User does not exist: " ++ u)).
    { unfold UserExists. cbn [index nth_error bind]. rewrite Hnone.
      reflexivity. }
    assert (Hfield : forall f, genericUserField sys u f v
                               = Returns (1, "User does not exist: " ++ u)).
    { intros f. rewrite genericUserField_run, Hnone. reflexivity. }
    rewrite Hexists. repeat apply conj; try reflexivity; apply Hfield.
  - intros usr Husr rest. unfold UserExists. cbn [index nth_error bind].
    rewrite Husr. reflexivity.
Qed.

Lemma UserHas_checks_report_missing_user_witness :
  UserHasHomeDir networkSystem ["bob"; "/home/bob"]
  = Returns (1, "User does not exist: bob").
Proof.
  destruct (proj1 (UserHas_checks_report_missing_user networkSystem "bob")
              eq_refl "/home/bob" [])
    as (Hexists & _ & _ & _ & _ & Hhome).
  rewrite Hhome. exact Hexists.
Defined.

(** X15: lookupUser tries the parameter as a user id first and as a user
    name only when no user has that id.  A user whose name is another
    user's id is therefore never reached by name: the checks look at the
    user with that id. *)
Theorem lookupUser_prefers_id (sys : System) (x : string) :
  (forall byId, LookupId sys x = Some byId ->
     lookupUser sys x = Some byId
     /\ forall v rest,
          UserHasUsername sys (x :: v :: rest) = Returns (0, "")
          <-> user.Username byId = v)
  /\ (LookupId sys x = None -> lookupUser sys x = Lookup sys x).
Proof.
  split.
  - intros byId Hid.
    assert (Hlookup : lookupUser sys x = Some byId).
    { unfold lookupUser. rewrite Hid. reflexivity. }
    split; [exact Hlookup|]. intros v rest.
    rewrite (field_success_iff sys x "Username" v user.Username)
      by reflexivity.
    rewrite Hlookup. split.
    + intros (usr & Husr & E). injection Husr as <-. exact E.
    + intros E. exists byId. auto.
  - intros Hnone. unfold lookupUser. rewrite Hnone. reflexivity.
Qed.

Lemma lookupUser_prefers_id_witness :
  Lookup networkSystem "1000" = Some numeric
  /\ UserHasUsername networkSystem ["1000"; "alice"] = Returns (0, "").
Proof.
  split; [reflexivity|].
  apply (proj2 (proj1 (lookupUser_prefers_id networkSystem "1000")
                  alice eq_refl) "alice" []).
  reflexivity.
Defined.



Lemma UserHas_checks_compare_their_field_witness :
  UserHasHomeDir networkSystem ["alice"; "/home/alice"] = Returns (0, "").
Proof.
  destruct (UserHas_checks_compare_their_field networkSystem "alice"
              "/home/alice" []) as (_ & _ & _ & _ & Hhome).
  apply Hhome. exists alice. split; reflexivity.
Defined.


(** ** Interfaces *)

Lemma Interface_run (sys : System) (ifaces : list net.Interface)
  (name : string) (rest : list string) :
  Interfaces sys = inl ifaces ->
  Interface sys (name :: rest)
  = if existsb (fun iface => String.eqb iface name) (map net.IfName ifaces)
    then Returns (0, "")
    else Returns (genericError "Interface does not exist" name
                    (map net.IfName ifaces)).
Proof.
  intros Hifaces. unfold Interface, getInterfaces.
  cbn [index nth_error bind]. rewrite Hifaces. reflexivity.
Qed.

Lemma Interface_success (sys : System) (ifaces : list net.Interface)
  (name : string) (rest : list string) :
  Interfaces sys = inl ifaces ->
  In name (map net.IfName ifaces) ->
  Interface sys (name :: rest) = Returns (0, "").
Proof.
  intros Hifaces Hin. rewrite (Interface_run sys ifaces name rest Hifaces).
  assert (Hex : existsb (fun iface => String.eqb iface name)
                  (map net.IfName ifaces) = true).
  { apply existsb_exists. exists name. split; [exact Hin|].
    apply String.eqb_refl. }
  rewrite Hex. reflexivity.
Qed.

(** X17: an interface that passes Up passes Interface: Up returns (0, "")
    only for the name of an interface that net.Interfaces lists with the up
    flag set. *)
Theorem Up_implies_Interface (sys : System) (name : string)
  (rest rest' : list string) :
  Up sys (name :: rest) = Returns (0, "") ->
  Interface sys (name :: rest') = Returns (0, "")
  /\ exists ifaces iface,
       Interfaces sys = inl ifaces /\ In iface ifaces
       /\ net.IfName iface = name /\ net.FlagUp iface = true.
Proof.
  unfold Up, getInterfaces. cbn [index nth_error bind].
  destruct (Interfaces sys) as [ifaces|e] eqn:Hifaces; [|discriminate].
  cbn [bind]. cbv zeta. intros Hup.
  apply check_success_if in Hup; [|reflexivity].
  apply strIn_In, in_map_iff in Hup as (iface & Hname & Hin).
  apply filter_In in Hin as [Hin Hflag].
  split.
  - apply (Interface_success sys ifaces name rest' Hifaces).
    apply in_map_iff. exists iface. auto.
  - exists ifaces, iface. auto.
Qed.

Lemma Up_implies_Interface_witness :
  Interface networkSystem ["lo"] = Returns (0, "").
Proof.
  exact (proj1 (Up_implies_Interface networkSystem "lo" [] [] eq_refl)).
Defined.

Lemma interfaceIPsFrom_found (ifaces : list net.Interface) (name : string)
  (version : Z) (ips : list string) :
  interfaceIPsFrom ifaces name version = Returns ips ->
  ips <> [] ->
  In name (map net.IfName ifaces).
Proof.
  induction ifaces as [|iface rest IH]; simpl; intros Hrun Hne.
  - injection Hrun as <-. contradiction.
  - destruct (String.eqb_spec (net.IfName iface) name) as [E|NE].
    + left. exact E.
    + right. exact (IH Hrun Hne).
Qed.

(** X18: an interface that passes Ip4 or Ip6 passes Interface: the address
    checks return (0, "") only for an interface that net.Interfaces
    lists. *)
Theorem Ip_implies_Interface (sys : System) (name address : string)
  (rest rest' : list string) :
  Ip4 sys (name :: address :: rest) = Returns (0, "")
  \/ Ip6 sys (name :: address :: rest) = Returns (0, "") ->
  Interface sys (name :: rest') = Returns (0, "").
Proof.
  assert (Hworker : forall version,
             getIPWorker sys name address version = Returns (0, "") ->
             Interface sys (name :: rest') = Returns (0, "")).
  { intros version. unfold getIPWorker, getInterfaceIPs, getInterfaces.
    destruct (negb (version =? 4) && negb (version =? 6)); [discriminate|].
    destruct (Interfaces sys) as [ifaces|e] eqn:Hifaces; [|discriminate].
    cbn [bind].
    destruct (interfaceIPsFrom ifaces name version) as [ips| |] eqn:Hips;
      cbn [bind]; try discriminate.
    intros Hok. apply check_success_if in Hok; [|reflexivity].
    apply strIn_In in Hok.
    apply (Interface_success sys ifaces name rest' Hifaces).
    apply (interfaceIPsFrom_found ifaces name version ips Hips).
    intros ->. contradiction. }
  intros [H4|H6].
  - apply (Hworker 4). exact H4.
  - apply (Hworker 6). exact H6.
Qed.

Lemma Ip_implies_Interface_witness :
  Ip6 networkSystem ["lo"; "::1"] = Returns (0, "")
  /\ Interface networkSystem ["lo"] = Returns (0, "").
Proof.
  split; [reflexivity|].
  exact (Ip_implies_Interface networkSystem "lo" "::1" [] []
           (or_intror eq_refl)).
Defined.

Lemma interfaceIPsFrom_missing (ifaces : list net.Interface) (name : string)
  (version : Z) :
  ~ In name (map net.IfName ifaces) ->
  interfaceIPsFrom ifaces name version = Returns [].
Proof.
  induction ifaces as [|iface rest IH]; simpl; intros Hnot; [reflexivity|].
  destruct (String.eqb_spec (net.IfName iface) name) as [E|NE];
    [exfalso; apply Hnot; left; exact E|].
  apply IH. intros Hin. apply Hnot. right. exact Hin.
Qed.

(** X19: for an interface that net.Interfaces does not list,
    getInterfaceIPs returns no address instead of an error, so Ip4 and Ip6
    report it as an interface without the address (exit code 1, nothing
    found) while Interface reports that it does not exist. *)
Theorem Ip_checks_on_missing_interface (sys : System)
  (ifaces : list net.Interface) (name : string) :
  Interfaces sys = inl ifaces ->
  ~ In name (map net.IfName ifaces) ->
  getInterfaceIPs sys name 4 = Returns []
  /\ getInterfaceIPs sys name 6 = Returns []
  /\ forall address rest,
       Ip4 sys (name :: address :: rest)
       = Returns (genericError "Interface does not have IP" address [])
       /\ Ip6 sys (name :: address :: rest)
          = Returns (genericError "Interface does not have IP" address [])
       /\ Interface sys (name :: rest)
          = Returns (genericError "Interface does not exist" name
                       (map net.IfName ifaces)).
Proof.
  intros Hifaces Hnot.
  assert (Hips : forall version, version = 4 \/ version = 6 ->
             getInterfaceIPs sys name version = Returns []).
  { intros version Hv. unfold getInterfaceIPs, getInterfaces.
    rewrite Hifaces. cbn [bind].
    rewrite (interfaceIPsFrom_missing ifaces name version Hnot).
    destruct Hv as [-> | ->]; reflexivity. }
  split; [apply Hips; auto|]. split; [apply Hips; auto|].
  intros address rest. repeat apply conj.
  - unfold Ip4, getIPWorker. cbn [index nth_error bind].
    rewrite (Hips 4) by auto. reflexivity.
  - unfold Ip6, getIPWorker. cbn [index nth_error bind].
    rewrite (Hips 6) by auto. reflexivity.
  - rewrite (Interface_run sys ifaces name rest Hifaces).
    destruct (existsb (fun iface => String.eqb iface name)
                (map net.IfName ifaces)) eqn:Hex; [|reflexivity].
    apply existsb_exists in Hex as (x & Hin & E).
    apply String.eqb_eq in E. subst x. contradiction.
Qed.

Lemma Ip_checks_on_missing_interface_witness :
  Ip4 networkSystem ["wlan0"; "10.0.0.2"]
  = Returns (genericError "Interface does not have IP" "10.0.0.2" []).
Proof.
  refine (proj1 (proj2 (proj2 (Ip_checks_on_missing_interface networkSystem
                                 [lo; eth0] "wlan0" eq_refl _))
                   "10.0.0.2" [])).
  intros [E|[E|[]]]; discriminate E.
Defined.

Lemma addressString_one (version : Z) (addr : net.Addr) :
  version = 4 \/ version = 6 -> length (addressString version addr) = 1%nat.
Proof. intros [-> | ->]; reflexivity. Qed.

(** X20: for IP version 4 or 6, getInterfaceIPs returns one string for each
    address of the first interface with the given name, in order; an
    address that is neither a *net.IPNet nor a *net.IPAddr contributes the
    string "<nil>". *)
Theorem getInterfaceIPs_one_string_per_address (sys : System)
  (before after : list net.Interface) (iface : net.Interface)
  (addresses : list net.Addr) (version : Z) :
  Interfaces sys = inl (before ++ iface :: after)%list ->
  ~ In (net.IfName iface) (map net.IfName before) ->
  net.Addrs iface = inl addresses ->
  version = 4 \/ version = 6 ->
  exists ips,
    getInterfaceIPs sys (net.IfName iface) version = Returns ips
    /\ length ips = length addresses
    /\ forall i, nth_error addresses i = Some net.OtherAddr ->
                 nth_error ips i = Some "<nil>".
Proof.
  intros Hifaces Hbefore Haddrs Hversion.
  exists (flat_map (addressString version) addresses). split; [|split].
  - unfold getInterfaceIPs, getInterfaces. rewrite Hifaces.
    assert (Hv : negb (version =? 4) && negb (version =? 6) = false)
      by (destruct Hversion as [-> | ->]; reflexivity).
    rewrite Hv. cbn [bind]. clear Hifaces.
    induction before as [|b before IH]; simpl.
    + rewrite String.eqb_refl, Haddrs. reflexivity.
    + destruct (String.eqb_spec (net.IfName b) (net.IfName iface)) as [E|NE].
      * exfalso. apply Hbefore. left. exact E.
      * apply IH. intros Hin. apply Hbefore. right. exact Hin.
  - induction addresses as [|a rest IH] in |- *; [reflexivity|].
    cbn [flat_map]. rewrite length_app, (addressString_one version a Hversion).
    cbn [length Nat.add]. f_equal. exact IH.
  - clear Haddrs. induction addresses as [|a rest IH]; intros i Hi.
    + destruct i; discriminate Hi.
    + cbn [flat_map].
      assert (Hone : exists s, addressString version a = [s]
                               /\ (a = net.OtherAddr -> s = "<nil>")).
      { destruct Hversion as [-> | ->]; destruct a; eexists;
          (split; [reflexivity|]); intros E; try discriminate E;
          reflexivity. }
      destruct Hone as (s & Hs & Hnil). rewrite Hs. cbn [app].
      destruct i as [|i]; simpl in Hi |- *.
      * injection Hi as ->. f_equal. apply Hnil. reflexivity.
      * exact (IH i Hi).
Qed.

Lemma getInterfaceIPs_one_string_per_address_witness :
  getInterfaceIPs networkSystem "eth0" 4 = Returns ["<nil>"].
Proof.
  destruct (getInterfaceIPs_one_string_per_address networkSystem [lo] []
              eth0 [net.OtherAddr] 4 eq_refl)
    as (ips & Hrun & Hlen & Hnil).
  - intros [E|[]]. discriminate E.
  - reflexivity.
  - left. reflexivity.
  - specialize (Hnil 0%nat eq_refl).
    destruct ips as [|s [|s' ips]]; try discriminate Hlen.
    injection Hnil as ->. exact Hrun.
Defined.

(** ** Ports *)

Lemma Forall2_In_r {A B : Type} (R : A -> B -> Prop) (xs : list A)
  (ys : list B) (y : B) :
  Forall2 R xs ys -> In y ys -> exists x, In x xs /\ R x y.
Proof.
  induction 1 as [|x' y' xs' ys' HR _ IH]; intros Hin; [contradiction|].
  destruct Hin as [->|Hin].
  - exists x'. split; [left; reflexivity | exact HR].
  - destruct (IH Hin) as (x & Hx & HRx). exists x. split; [right|]; assumption.
Qed.

(** X21: getOpenPorts is fatal only when /proc/net/tcp cannot be read: the
    log.Fatal of strHexToDecimal is never reached, because every port that
    getHexPorts extracts is four hexadecimal digits.  It returns one port
    for each extracted hexadecimal port, each between 0 and 65535. *)
Theorem getOpenPorts_sixteen_bit (sys : System) :
  match ReadFile sys "/proc/net/tcp" with
  | None => isFatal (getOpenPorts sys) = true
  | Some data =>
      exists open,
        getOpenPorts sys = Returns open
        /\ length open
           = length (hexPortsOf (getColumnNoHeader 1 (stringToSlice data)))
        /\ forall p, In p open -> 0 <= p < 65536
  end.
Proof.
  destruct (ReadFile sys "/proc/net/tcp") as [data|] eqn:Hfile.
  - destruct (getOpenPorts_of_file sys data Hfile) as (open & Hopen & Hall).
    exists open. split; [exact Hopen|]. split.
    + symmetry. exact (Forall2_length Hall).
    + intros p Hin.
      destruct (Forall2_In_r _ _ _ _ Hall Hin) as (hex & Hhex & Hparse).
      destruct (hexPortsOf_parse _ hex Hhex) as (n & Hn & Hrange).
      congruence.
  - unfold getOpenPorts, getHexPorts, fileToString. rewrite Hfile.
    reflexivity.
Qed.

Lemma FindPort_skip (c : ascii) (rest : string) :
  Ascii.eqb c ":" = false ->
  regexp.FindPort (String c rest) = regexp.FindPort rest.
Proof.
  intros Hc. cbn [regexp.FindPort]. rewrite Hc.
  destruct rest as [|h1 [|h2 [|h3 [|h4 more]]]]; reflexivity.
Qed.

Lemma FindPort_no_colon (s : string) :
  hasChar ":" s = false -> regexp.FindPort s = "".
Proof.
  induction s as [|c rest IH]; [reflexivity|]. cbn [hasChar].
  intros H. apply orb_false_iff in H as [Hc Hrest].
  rewrite (FindPort_skip c rest Hc). exact (IH Hrest).
Qed.

Lemma FindPort_localAddress (entry : string * string) :
  plainEntry entry = true ->
  regexp.FindPort (localAddress entry) = ":" ++ snd entry.
Proof.
  destruct entry as [ip port]. unfold plainEntry, localAddress.
  cbn [fst snd]. intros H. apply andb_true_iff in H as [Hip Hport].
  apply negb_true_iff in Hip.
  induction ip as [|c ip IH].
  - destruct port as [|h1 [|h2 [|h3 [|h4 [|x more]]]]]; try discriminate.
    cbn [isHex4] in Hport. cbn [append regexp.FindPort].
    rewrite Ascii.eqb_refl. cbn [andb].
    change (regexp.isUpperHex h1 && regexp.isUpperHex h2
            && regexp.isUpperHex h3 && regexp.isUpperHex h4)
      with (isHex4 (String h1 (String h2 (String h3 (String h4 ""))))).
    cbn [isHex4]. rewrite Hport. reflexivity.
  - cbn [hasChar] in Hip. apply orb_false_iff in Hip as [Hc Hip].
    change (String c ip ++ ":" ++ port) with (String c (ip ++ ":" ++ port)).
    rewrite (FindPort_skip _ _ Hc). exact (IH Hip).
Qed.

Lemma hexPortsOf_app (a b : list string) :
  hexPortsOf (a ++ b)%list = (hexPortsOf a ++ hexPortsOf b)%list.
Proof. unfold hexPortsOf. apply flat_map_app. Qed.

(** X22: getHexPorts takes from every local address of the form
    <address>:<port>, with no colon in the address and four upper-case
    hexadecimal digits as port, exactly that port, in order; an address
    without a colon contributes no port. *)
Theorem hexPortsOf_reads_ports (entries : list (string * string)) :
  forallb plainEntry entries = true ->
  hexPortsOf (map localAddress entries) = map snd entries
  /\ forall others,
       forallb (fun a => negb (hasChar ":" a)) others = true ->
       hexPortsOf (others ++ map localAddress entries)%list = map snd entries.
Proof.
  intros Hentries.
  assert (Hmain : hexPortsOf (map localAddress entries) = map snd entries).
  { unfold hexPortsOf. induction entries as [|entry rest IH]; [reflexivity|].
    cbn [forallb] in Hentries.
    apply andb_true_iff in Hentries as [Hentry Hrest].
    cbn [map flat_map]. rewrite (FindPort_localAddress entry Hentry).
    cbn [append String.eqb dropColon app]. f_equal. exact (IH Hrest). }
  split; [exact Hmain|].
  intros others Hothers. rewrite hexPortsOf_app, Hmain.
  assert (Hnone : hexPortsOf others = []).
  { induction others as [|a rest IH]; [reflexivity|].
    cbn [forallb] in Hothers.
    apply andb_true_iff in Hothers as [Ha Hrest].
    apply negb_true_iff in Ha.
    change (a :: rest) with ([a] ++ rest)%list.
    rewrite hexPortsOf_app, (IH Hrest), app_nil_r.
    unfold hexPortsOf. cbn [flat_map].
    rewrite (FindPort_no_colon a Ha). reflexivity. }
  rewrite Hnone. reflexivity.
Qed.

Lemma hexPortsOf_reads_ports_witness :
  hexPortsOf ["local_address"; "0100007F:1F90"; "00000000:0016"]
  = ["1F90"; "0016"].
Proof.
  exact (proj2 (hexPortsOf_reads_ports
                  [("0100007F", "1F90"); ("00000000", "0016")] eq_refl)
           ["local_address"] eq_refl).
Defined.

(** ** Parameter lists *)

(** X23: no check reads a parameter beyond its arity: parameters after
    the ones a check takes never change its outcome. *)
Theorem surplus_parameters_are_ignored (name : string) (arity : nat)
  (check : Check) (sys : System) (parameters extra : list string) :
  In (name, arity, check) domainChecks ->
  length parameters = arity ->
  check sys (parameters ++ extra)%list = check sys parameters.
Proof.
  intros Hin Hlen. simpl in Hin.
  repeat (destruct Hin as [Hin|Hin];
          [injection Hin as <- <- <-|]); try contradiction;
    destruct parameters as [|p0 [|p1 [|p2 rest]]]; simpl in Hlen;
    try discriminate Hlen; reflexivity.
Qed.

Lemma surplus_parameters_are_ignored_witness :
  GroupId (withFile "/etc/group" "sudo:x:27:alice" bareSystem)
    ["sudo"; "27"; "ignored"]
  = GroupId (withFile "/etc/group" "sudo:x:27:alice" bareSystem)
      ["sudo"; "27"].
Proof.
  exact (surplus_parameters_are_ignored "GroupId" 2 GroupId
           (withFile "/etc/group" "sudo:x:27:alice" bareSystem)
           ["sudo"; "27"] ["ignored"]
           (or_intror (or_intror (or_introl eq_refl))) eq_refl).
Defined.

Section NeverPanics.

Lemma np_returns {A : Type} (a : A) : neverPanics (Returns a).
Proof. intros p. discriminate. Qed.

Lemma np_fatal {A : Type} (msg : string) : neverPanics (@Fatal A msg).
Proof. intros p. discriminate. Qed.

Lemma np_bind {A B : Type} (m : outcome A) (k : A -> outcome B) :
  neverPanics m -> (forall a, neverPanics (k a)) -> neverPanics (bind m k).
Proof.
  intros Hm Hk. destruct m as [a|msg|p]; simpl.
  - apply Hk.
  - apply np_fatal.
  - exfalso. exact (Hm p eq_refl).
Qed.

Lemma np_getGroupsFrom (table : list (list string)) :
  forall groups, neverPanics (getGroupsFrom table groups).
Proof.
  induction table as [|line rest IH]; intros groups; simpl.
  - apply np_returns.
  - destruct line as [|f0 [|f1 [|f2 [|f3 more]]]]; try apply IH.
    destruct (strconv.ParseInt f2 10); [apply IH | apply np_fatal].
Qed.

Lemma np_getGroups (sys : System) : neverPanics (getGroups sys).
Proof.
  unfold getGroups, fileToString.
  destruct (ReadFile sys "/etc/group"); simpl;
    [apply np_getGroupsFrom | apply np_fatal].
Qed.

Lemma np_groupNotFound (sys : System) (name : string) :
  neverPanics (groupNotFound sys name).
Proof.
  unfold groupNotFound. apply np_bind; [apply np_getGroups|].
  intros groups. apply np_returns.
Qed.

Lemma np_UserInGroupFrom (sys : System) (groups : list Group)
  (user group : string) :
  neverPanics (UserInGroupFrom sys groups user group).
Proof.
  induction groups as [|g rest IH]; simpl; [apply np_groupNotFound|].
  destruct (String.eqb (Name g) group); [|exact IH].
  destruct (strIn user (Users g)); apply np_returns.
Qed.

Lemma np_GroupIdFrom (sys : System) (groups : list Group) (name : string)
  (id : Z) :
  neverPanics (GroupIdFrom sys groups name id).
Proof.
  induction groups as [|g rest IH]; simpl; [apply np_groupNotFound|].
  destruct (String.eqb (Name g) name); [|exact IH].
  destruct (Id g =? id); apply np_returns.
Qed.

Lemma np_parseMyInt (str : string) : neverPanics (parseMyInt str).
Proof.
  unfold parseMyInt.
  destruct (strconv.ParseInt str 10); [apply np_returns | apply np_fatal].
Qed.

Lemma np_genericUserField (sys : System) (u f v : string) :
  neverPanics (genericUserField sys u f v).
Proof.
  rewrite genericUserField_run.
  destruct (lookupUser sys u) as [usr|]; [|apply np_returns].
  destruct (user.FieldByName usr f) as [actual|]; [|apply np_fatal].
  destruct (String.eqb actual v); apply np_returns.
Qed.

Lemma np_commandColumnNoHeader (sys : System) (col : nat)
  (cmd : list string) :
  neverPanics (commandColumnNoHeader sys col cmd).
Proof.
  unfold commandColumnNoHeader, commandOutput.
  destruct (CombinedOutput sys cmd) as [out [e|]]; simpl.
  - destruct (strings.Contains out "permission denied"); apply np_fatal.
  - apply np_returns.
Qed.

Lemma np_getRunningContainers (sys : System) :
  neverPanics (getRunningContainers sys).
Proof.
  unfold getRunningContainers.
  destruct (CombinedOutput sys ["docker"; "ps"; "-a"]) as [out [e|]].
  - destruct (strings.Contains out "permission denied"); apply np_fatal.
  - destruct (length (stringToSliceMultispace out) <? 1)%nat;
      [apply np_returns|].
    destruct (runningFrom_collects
                (getColumnNoHeader 1 (stringToSliceMultispace out))
                (getColumnNoHeader 4 (stringToSliceMultispace out)) 0 [])
      as (more & Hrun & _).
    rewrite Hrun. apply np_returns.
Qed.

Lemma np_getOpenPorts (sys : System) : neverPanics (getOpenPorts sys).
Proof.
  destruct (ReadFile sys "/proc/net/tcp") as [data|] eqn:Hfile.
  - destruct (getOpenPorts_of_file sys data Hfile) as (open & Hopen & _).
    rewrite Hopen. apply np_returns.
  - unfold getOpenPorts, getHexPorts, fileToString. rewrite Hfile.
    apply np_fatal.
Qed.

Lemma np_getInterfaces (sys : System) : neverPanics (getInterfaces sys).
Proof.
  unfold getInterfaces.
  destruct (Interfaces sys); [apply np_returns | apply np_fatal].
Qed.

Lemma np_getIPWorker (sys : System) (name address : string) (version : Z) :
  neverPanics (getIPWorker sys name address version).
Proof.
  unfold getIPWorker, getInterfaceIPs. apply np_bind.
  - destruct (negb (version =? 4) && negb (version =? 6)); [apply np_fatal|].
    apply np_bind; [apply np_getInterfaces|]. intros ifaces.
    induction ifaces as [|iface rest IH]; simpl; [apply np_returns|].
    destruct (String.eqb (net.IfName iface) name); [|exact IH].
    destruct (net.Addrs iface); [apply np_returns | apply np_fatal].
  - intros ips. destruct (strIn address ips); apply np_returns.
Qed.

End NeverPanics.

Ltac nopanic_step :=
  first
    [ apply np_returns
    | apply np_fatal
    | apply np_getGroups
    | apply np_groupNotFound
    | apply np_UserInGroupFrom
    | apply np_GroupIdFrom
    | apply np_parseMyInt
    | apply np_genericUserField
    | apply np_commandColumnNoHeader
    | apply np_getRunningContainers
    | apply np_getOpenPorts
    | apply np_getInterfaces
    | apply np_getIPWorker
    | apply np_bind; [|intros]
    | progress cbv zeta
    | match goal with
      | |- neverPanics (if ?b then _ else _) => destruct b
      | |- neverPanics (match ?x with _ => _ end) => destruct x
      end ].

Ltac nopanic := repeat nopanic_step.

(** X24: given at least as many parameters as it takes, a check that
    neither reads the routing table nor dials never ends in a run-time
    panic: it returns a check result or ends in log.Fatal.  (The routing
    checks can panic on the slice of an empty column, TCP and UDP on the
    deferred Close after a failed dial.) *)
Theorem checks_without_routes_and_dials_never_panic (name : string)
  (arity : nat) (check : Check) (sys : System) (parameters : list string)
  (p : panic) :
  In (name, arity, check) domainChecks ->
  isRoutingCheck name = false ->
  isDialCheck name = false ->
  (arity <= length parameters)%nat ->
  check sys parameters <> Panics p.
Proof.
  intros Hin Hroute Hdial Hlen. revert p.
  change (neverPanics (check sys parameters)).
  simpl in Hin.
  repeat (destruct Hin as [Hin|Hin];
          [injection Hin as <- <- <-|]); try contradiction;
    try discriminate Hroute; try discriminate Hdial;
    destruct parameters as [|p0 [|p1 rest]]; simpl in Hlen; try lia.
  all: match goal with
       | |- neverPanics (?c _ _) => unfold c
       end; cbn [index nth_error bind]; nopanic.
Qed.

Lemma checks_without_routes_and_dials_never_panic_witness :
  DockerRunning truncatedSystem ["web"] <> Panics (IndexOutOfRange 1 1).
Proof.
  apply (checks_without_routes_and_dials_never_panic "DockerRunning" 1
           DockerRunning).
  - simpl. tauto.
  - reflexivity.
  - reflexivity.
  - simpl. lia.
Defined.

(** X25: UserExists, the five UserHas checks and Host always return a check
    result when given the parameters they take: none of them can be fatal,
    and in particular the log.Fatal of the reflective field lookup is out of
    reach of the five field names used. *)
Theorem lookup_checks_always_return (name : string) (arity : nat)
  (check : Check) (sys : System) (parameters : list string) :
  In (name, arity, check) domainChecks ->
  isLookupCheck name = true ->
  (arity <= length parameters)%nat ->
  exists r, check sys parameters = Returns r.
Proof.
  intros Hin Hlookup Hlen. simpl in Hin.
  repeat (destruct Hin as [Hin|Hin];
          [injection Hin as <- <- <-|]); try contradiction;
    try discriminate Hlookup;
    destruct parameters as [|p0 [|p1 rest]]; simpl in Hlen; try lia.
  all: match goal with
       | |- exists r, ?c _ _ = _ => unfold c
       end; cbn [index nth_error bind];
    try rewrite genericUserField_run.
  all: try (destruct (lookupUser sys p0) as [usr|];
            [|eexists; reflexivity]).
  all: try (cbn [user.FieldByName String.eqb Ascii.eqb Bool.eqb];
            match goal with
            | |- context [if String.eqb ?a ?b then _ else _] =>
                destruct (String.eqb a b)
            end).
  all: try (eexists; reflexivity).
  all: destruct (LookupHost sys p0); eexists; reflexivity.
Qed.

Lemma lookup_checks_always_return_witness :
  exists r, UserHasGID networkSystem ["alice"; "0"] = Returns r.
Proof.
  apply (lookup_checks_always_return "UserHasGID" 2 UserHasGID).
  - simpl. tauto.
  - reflexivity.
  - simpl. lia.
Defined.

(** ** Containers and group membership *)

(** X26: when `docker ps -a` succeeds and no status of its column 4
    contains "Up", DockerRunning finds no running container: for every name
    it returns the "Docker container not runnning" diagnostic with nothing
    found. *)
Theorem DockerRunning_without_up_status (sys : System) (out : string) :
  CombinedOutput sys ["docker"; "ps"; "-a"] = (out, None) ->
  (forall status,
      In status (getColumnNoHeader 4 (stringToSliceMultispace out)) ->
      strings.Contains status "Up" = false) ->
  getRunningContainers sys = Returns []
  /\ forall name rest,
       DockerRunning sys (name :: rest)
       = Returns (genericError "Docker container not runnning" name []).
Proof.
  intros Hcmd Hdown.
  assert (Hrunning : getRunningContainers sys = Returns []).
  { unfold getRunningContainers. rewrite Hcmd.
    destruct (length (stringToSliceMultispace out) <? 1)%nat; [reflexivity|].
    destruct (runningFrom_collects
                (getColumnNoHeader 1 (stringToSliceMultispace out))
                (getColumnNoHeader 4 (stringToSliceMultispace out)) 0 [])
      as (more & Hrun & Hmore).
    rewrite Hrun. destruct more as [|x more]; [reflexivity|].
    destruct (proj1 (Hmore x) (or_introl eq_refl))
      as (j & status & Hj & Hup & _).
    apply nth_error_In in Hj. rewrite (Hdown status Hj) in Hup.
    discriminate Hup. }
  split; [exact Hrunning|].
  intros name rest. unfold DockerRunning. cbn [index nth_error bind].
  rewrite Hrunning. reflexivity.
Qed.

Lemma DockerRunning_without_up_status_witness :
  DockerRunning exitedSystem ["db"]
  = Returns (genericError "Docker container not runnning" "db" []).
Proof.
  refine (proj2 (DockerRunning_without_up_status exitedSystem exitedPsOutput
                   eq_refl _) "db" []).
  intros status [<-|[]]. reflexivity.
Defined.

Lemma UserInGroupFrom_first (sys : System) (before after : list Group)
  (g : Group) (user group : string) :
  groupNamed before group = false ->
  Name g = group ->
  UserInGroupFrom sys (before ++ g :: after)%list user group
  = if strIn user (Users g) then Returns (0, "")
    else Returns (genericError "User not found in group" user (Users g)).
Proof.
  intros Hbefore Hname. induction before as [|b before IH]; simpl.
  - rewrite Hname, String.eqb_refl. reflexivity.
  - simpl in Hbefore. destruct (String.eqb (Name b) group); [discriminate|].
    exact (IH Hbefore).
Qed.

(** X27: as the code stands, UserInGroup looks for the first group named
    like its first parameter and for a user of that same name in it: it
    returns (0, "") when that group lists the name among its users, the
    "User not found in group" diagnostic with the group's users when it does
    not, and the "Group not found" diagnostic when no group has the name. *)
Theorem UserInGroup_first_parameter_decides (sys : System)
  (groups : list Group) (user : string) (rest : list string) :
  getGroups sys = Returns groups ->
  (forall before g after,
      groups = (before ++ g :: after)%list ->
      groupNamed before user = false ->
      Name g = user ->
      UserInGroup sys (user :: rest)
      = if strIn user (Users g) then Returns (0, "")
        else Returns (genericError "User not found in group" user (Users g)))
  /\ (groupNamed groups user = false ->
      UserInGroup sys (user :: rest)
      = Returns (genericError "Group not found" user (map Name groups))).
Proof.
  intros Hgroups. split.
  - intros before g after -> Hbefore Hname. unfold UserInGroup.
    cbn [index nth_error bind]. rewrite Hgroups. cbn [bind].
    apply UserInGroupFrom_first; assumption.
  - intros Hnone. unfold UserInGroup. cbn [index nth_error bind].
    rewrite Hgroups. cbn [bind].
    assert (Hloop : forall gs, groupNamed gs user = false ->
               UserInGroupFrom sys gs user user = groupNotFound sys user).
    { induction gs as [|g gs IH]; simpl; [reflexivity|].
      destruct (String.eqb (Name g) user); [discriminate | exact IH]. }
    rewrite (Hloop groups Hnone). unfold groupNotFound. rewrite Hgroups.
    reflexivity.
Qed.

Lemma UserInGroup_first_parameter_decides_witness :
  UserInGroup (withFile "/etc/group" (lines ["sudo:x:27:alice";
                                             "alice:x:1000:alice"])
                 bareSystem) ["alice"; "sudo"]
  = Returns (0, "").
Proof.
  exact (proj1 (UserInGroup_first_parameter_decides
                  (withFile "/etc/group" (lines ["sudo:x:27:alice";
                                                 "alice:x:1000:alice"])
                     bareSystem)
                  [mkGroup "sudo" 27 ["alice"]; mkGroup "alice" 1000 ["alice"]]
                  "alice" ["sudo"] eq_refl)
           [mkGroup "sudo" 27 ["alice"]] (mkGroup "alice" 1000 ["alice"]) []
           eq_refl eq_refl eq_refl).
Defined.

(** X28: the routing checks never match the first entry of the column
    that `route -n` yields with its header dropped: routingTableColumn
    slices it off, so routingTableMatch returns (0, "") exactly for the
    entries after it, and lists only those as found otherwise. *)
Theorem routingTableMatch_skips_first_entry (sys : System) (col : nat)
  (first : string) (others : list string) (str : string) :
  commandColumnNoHeader sys col ["route"; "-n"] = Returns (first :: others) ->
  (routingTableMatch sys col str = Returns (0, "") <-> In str others)
  /\ (~ In str others ->
      routingTableMatch sys col str
      = Returns (genericError "Not found in routing table" str others)).
Proof.
  intros Hcol.
  assert (Hrun : routingTableMatch sys col str
                 = if strIn str others then Returns (0, "")
                   else Returns (genericError "Not found in routing table"
                                   str others)).
  { unfold routingTableMatch, routingTableColumn. rewrite Hcol. reflexivity. }
  rewrite Hrun. split.
  - rewrite check_success_if by reflexivity. apply strIn_In.
  - intros Hnot. destruct (strIn str others) eqn:Hin; [|reflexivity].
    apply strIn_In in Hin. contradiction.
Qed.

Lemma routingTableMatch_skips_first_entry_witness :
  RoutingTableInterface routedSystem ["eth0"] = Returns (0, "")
  /\ RoutingTableInterface routedSystem ["Iface"]
     = Returns (genericError "Not found in routing table" "Iface"
                  ["eth0"; "eth0"]).
Proof.
  destruct (routingTableMatch_skips_first_entry routedSystem 7 "Iface"
              ["eth0"; "eth0"] "eth0" eq_refl) as [Hyes _].
  destruct (routingTableMatch_skips_first_entry routedSystem 7 "Iface"
              ["eth0"; "eth0"] "Iface" eq_refl) as [_ Hno].
  split.
  - apply Hyes. left. reflexivity.
  - apply Hno. intros [E|[E|[]]]; discriminate E.
Defined.

(** X29: whatever rows the tokenized output of `docker ps -a` has,
    DockerRunning pairs its column 1 and its column 4 by position, each
    taken from the header-skipped rows that are long enough for it: it
    returns (0, "") exactly when its first parameter stands in column 1 at
    a position where column 4 holds a status containing "Up".  A row with
    two to four columns shifts the pairing for the rows after it. *)
Theorem DockerRunning_pairs_columns_by_position (sys : System)
  (out name : string) (rest : list string) :
  CombinedOutput sys ["docker"; "ps"; "-a"] = (out, None) ->
  DockerRunning sys (name :: rest) = Returns (0, "")
  <-> exists i status,
        nth_error (getColumnNoHeader 4 (stringToSliceMultispace out)) i
        = Some status
        /\ strings.Contains status "Up" = true
        /\ nth_error (getColumnNoHeader 1 (stringToSliceMultispace out)) i
           = Some name.
Proof.
  intros Hcmd. exact (DockerRunning_success_iff sys out name rest Hcmd).
Qed.

Lemma DockerRunning_pairs_columns_by_position_witness :
  DockerRunning truncatedSystem ["web"] = Returns (0, "")
  /\ DockerRunning truncatedSystem ["db"] <> Returns (0, "").
Proof.
  split.
  - apply (proj2 (DockerRunning_pairs_columns_by_position truncatedSystem
                    truncatedPsOutput "web" [] eq_refl)).
    exists 0%nat, "Up 2 hours". repeat split.
  - intros E.
    apply (proj1 (DockerRunning_pairs_columns_by_position truncatedSystem
                    truncatedPsOutput "db" [] eq_refl)) in E.
    destruct E as (i & status & Hstatus & _ & Hname).
    destruct i as [|[|i]]; vm_compute in Hstatus, Hname;
      try discriminate Hname; try discriminate Hstatus.
Defined.
